(** * Fast Food Location Dashboard ([Final Project/app.py])

    A shallow embedding of the data loading, filtering and counting code of
    the dashboard, and the properties of it that the specification states.

    The program is written against pandas.  The part of pandas that the
    program uses is modelled here: a frame is a list of labelled rows over
    named, typed columns; a cell is a text, a number or the missing value
    NaN; an operation that pandas makes raise returns [Raise].

    Text is modelled over the code points below 256, one [ascii] per code
    point; numbers are integers (fractional cell values are outside the
    model). *)

From Stdlib Require Import ZArith Ascii String List Bool Lia Sorted Permutation.
From stdpp Require Import base list sorting.
Import ListNotations.
Open Scope string_scope.
Open Scope list_scope.

(** ** Python [str] methods used by the program *)

Module Str.

(** [str.isspace] on one code point: TAB..CR, FS..US, space, NEL, NBSP. *)
Definition is_space (c : ascii) : bool :=
  let n := nat_of_ascii c in
  (((9 <=? n) && (n <=? 13)) || ((28 <=? n) && (n <=? 32))
   || (n =? 133) || (n =? 160))%nat.

(** Code points that [str.lower] changes: A..Z and the upper-case letters
    of Latin-1 (all of C0..DE but the multiplication sign D7). *)
Definition is_upper (c : ascii) : bool :=
  let n := nat_of_ascii c in
  (((65 <=? n) && (n <=? 90))
   || ((192 <=? n) && (n <=? 222) && negb (n =? 215)))%nat.

Definition lower_char (c : ascii) : ascii :=
  if is_upper c then ascii_of_nat (nat_of_ascii c + 32) else c.

(** [s.lower()] *)
Fixpoint lower (s : string) : string :=
  match s with
  | EmptyString => EmptyString
  | String c s' => String (lower_char c) (lower s')
  end.

(** [s.lstrip()] *)
Fixpoint lstrip (s : string) : string :=
  match s with
  | EmptyString => EmptyString
  | String c s' => if is_space c then lstrip s' else s
  end.

(** [s.rstrip()] *)
Fixpoint rstrip (s : string) : string :=
  match s with
  | EmptyString => EmptyString
  | String c s' =>
      match rstrip s' with
      | EmptyString => if is_space c then EmptyString else String c EmptyString
      | t => String c t
      end
  end.

(** [s.strip()] *)
Definition strip (s : string) : string := rstrip (lstrip s).

(** The first, and the last, code point of [s] is whitespace. *)
Definition leading_space (s : string) : bool :=
  match s with
  | EmptyString => false
  | String c _ => is_space c
  end.

Fixpoint trailing_space (s : string) : bool :=
  match s with
  | EmptyString => false
  | String c EmptyString => is_space c
  | String _ s' => trailing_space s'
  end.

(** No code point of [s] is an upper-case letter. *)
Fixpoint no_upper (s : string) : bool :=
  match s with
  | EmptyString => true
  | String c s' => negb (is_upper c) && no_upper s'
  end.

End Str.

(** ** Cells, exceptions and results *)

(** A cell of a frame, and any Python value the interaction shell hands to
    the filters: a [str], a number, or the float NaN that pandas uses for a
    missing cell. *)
Inductive value : Type :=
| VStr (s : string)
| VNum (z : Z)
| VNaN.

(** [isinstance(x, str)] *)
Definition is_str (x : value) : bool :=
  match x with VStr _ => true | _ => false end.

(** Python's [a == b] on two such values, which is also what pandas
    computes cell by cell for [series == scalar]: NaN equals nothing. *)
Definition py_eq (a b : value) : bool :=
  match a, b with
  | VStr s, VStr t => String.eqb s t
  | VNum x, VNum y => Z.eqb x y
  | _, _ => false
  end.

(** Equality of cells as pandas' hash tables see it ([duplicated], [isin],
    [value_counts], [groupby]): as [py_eq], but NaN matches NaN. *)
Definition value_eqb (a b : value) : bool :=
  match a, b with
  | VStr s, VStr t => String.eqb s t
  | VNum x, VNum y => Z.eqb x y
  | VNaN, VNaN => true
  | _, _ => false
  end.

(** The exceptions the program meets; all are subclasses of Python's
    [Exception], which is what the handler of the loader catches. *)
Inductive exception : Type :=
| FileNotFoundError (msg : string)
| EmptyDataError (msg : string)
| KeyError (msg : string)
| AttributeError (msg : string)
| TypeError (msg : string)
| OtherException (msg : string).

(** [str(e)], as the f-string of the handler formats it. *)
Definition exception_str (e : exception) : string :=
  match e with
  | FileNotFoundError m | EmptyDataError m | KeyError m
  | AttributeError m | TypeError m | OtherException m => m
  end.

Inductive result (A : Type) : Type :=
| Ok (a : A)
| Raise (e : exception).
Arguments Ok {A} a.
Arguments Raise {A} e.

Definition bind {A B : Type} (r : result A) (k : A -> result B) : result B :=
  match r with
  | Ok a => k a
  | Raise e => Raise e
  end.

Notation "'do' x <- r ; k" := (bind r (fun x => k))
  (at level 10, x name, r at level 100, k at level 200).

(** ** Frames *)

(** The two kinds of column that matter to the program: [object] columns
    hold text and NaN and have the [.str] accessor, numeric columns
    ([int64], [float64]) do not. *)
Inductive dtype : Type := object | numeric.

(** A row carries its index label (its line number in the file, for a frame
    that [read_csv] built) and its cells in column order. *)
Definition Row : Type := (nat * list value)%type.

Record DataFrame : Type := mkDataFrame {
  columns : list (string * dtype);
  rows : list Row
}.

(** A column taken out of a frame.  Its values are in row order; the masks
    built from it are applied to the frame it came from, so the labels are
    not repeated here. *)
Record Series : Type := mkSeries {
  s_dtype : dtype;
  s_values : list value
}.

(** Position of the column called [name]. *)
Fixpoint get_loc (name : string) (cols : list (string * dtype)) : option (nat * dtype) :=
  match cols with
  | [] => None
  | (n, d) :: cols' =>
      if String.eqb n name then Some (0, d)
      else match get_loc name cols' with
           | Some (i, d') => Some (S i, d')
           | None => None
           end
  end.

(** [name in df.columns] *)
Definition has_column (df : DataFrame) (name : string) : bool :=
  match get_loc name (columns df) with Some _ => true | None => false end.

Definition cell_at (i : nat) (r : Row) : value := nth i (snd r) VNaN.

(** The cell of row [r] of [df] in column [name] (NaN when there is no such
    column). *)
Definition cell (df : DataFrame) (name : string) (r : Row) : value :=
  match get_loc name (columns df) with
  | Some (i, _) => cell_at i r
  | None => VNaN
  end.

Definition quote (s : string) : string := ("'" ++ s ++ "'")%string.

(** [df[name]] *)
Definition getitem (df : DataFrame) (name : string) : result Series :=
  match get_loc name (columns df) with
  | Some (i, d) => Ok (mkSeries d (map (cell_at i) (rows df)))
  | None => Raise (KeyError (quote name))
  end.

(** [series == scalar] *)
Definition series_eq (s : Series) (x : value) : list bool :=
  map (fun c => py_eq c x) (s_values s).

(** [series.isin(values)] *)
Definition isin (s : Series) (values : list value) : list bool :=
  map (fun c => existsb (value_eqb c) values) (s_values s).

(** Whether pandas grants [.str] on a column.  It looks at the cells that
    are not missing: an [object] column has the accessor when one of them is
    a text, or when there is none; it has not when they are all numbers.  A
    numeric column never has it. *)
Definition has_str_accessor (s : Series) : bool :=
  match s_dtype s with
  | object =>
      existsb is_str (s_values s)
      || forallb (fun c => match c with VNaN => true | _ => false end) (s_values s)
  | numeric => false
  end.

(** [series.str.lower()]: text is lowered, any other cell becomes NaN; a
    column without [.str] raises [AttributeError]. *)
Definition str_lower (s : Series) : result Series :=
  if has_str_accessor s then
    Ok (mkSeries object
          (map (fun c => match c with VStr t => VStr (Str.lower t) | _ => VNaN end)
               (s_values s)))
  else
    Raise (AttributeError "Can only use .str accessor with string values!").

(** [x.lower()] on a Python value: only a [str] has the method. *)
Definition py_lower (x : value) : result value :=
  match x with
  | VStr t => Ok (VStr (Str.lower t))
  | _ => Raise (AttributeError "'float' object has no attribute 'lower'")
  end.

(** [mask1 & mask2] *)
Fixpoint mask_and (m1 m2 : list bool) : list bool :=
  match m1, m2 with
  | b1 :: m1', b2 :: m2' => (b1 && b2) :: mask_and m1' m2'
  | _, _ => []
  end.

(** The rows at which the mask is [True]. *)
Fixpoint select_rows (rs : list Row) (mask : list bool) : list Row :=
  match rs, mask with
  | r :: rs', b :: mask' =>
      if b then r :: select_rows rs' mask' else select_rows rs' mask'
  | _, _ => []
  end.

(** [df[mask]] *)
Definition boolean_index (df : DataFrame) (mask : list bool) : DataFrame :=
  mkDataFrame (columns df) (select_rows (rows df) mask).

(** [series.unique()]: the distinct values of [vs], in order of first
    appearance. *)
Fixpoint unique (vs : list value) : list value :=
  match vs with
  | [] => []
  | v :: vs' => v :: List.filter (fun x => negb (value_eqb v x)) (unique vs')
  end.

(** ** The filter functions of [app.py]

    The functions that read the module-level [df] take it as their first
    argument here. *)

(** [filter_data_by_province], lines 75-79. *)
Definition filter_data_by_province (df : DataFrame) (province : value)
  : result DataFrame :=
  if py_eq province (VStr "LA") then Ok df
  else
    do col <- getitem df "province" ;
    Ok (boolean_index df (series_eq col province)).

(** The province filter written out again at lines 230-233. *)
Definition filtered_df_top10 (df : DataFrame) (selected_province : value)
  : result DataFrame :=
  if py_eq selected_province (VStr "All") then Ok df
  else
    do col <- getitem df "province" ;
    Ok (boolean_index df (series_eq col selected_province)).

(** [filter_data_by_city_province], lines 99-104. *)
Definition filter_data_by_city_province (df : DataFrame) (city province : value)
  : result DataFrame :=
  if py_eq city (VStr "All") then
    do col <- getitem df "province" ;
    Ok (boolean_index df (series_eq col province))
  else
    do ccol <- getitem df "city" ;
    do clow <- str_lower ccol ;
    do c <- py_lower city ;
    do pcol <- getitem df "province" ;
    do plow <- str_lower pcol ;
    do p <- py_lower province ;
    Ok (boolean_index df (mask_and (series_eq clow c) (series_eq plow p))).

(** [get_category_data], lines 153-161. *)
Definition get_category_data (df : DataFrame)
    (categories_selected : list value) (selected_province : value)
  : result DataFrame :=
  do category_filtered <-
    (match categories_selected with
     | [] => Ok df
     | _ :: _ =>
         do col <- getitem df "categories" ;
         Ok (boolean_index df (isin col categories_selected))
     end) ;
  do col <- getitem category_filtered "province" ;
  Ok (boolean_index category_filtered (series_eq col selected_province)).

(** [get_pie_chart_data], lines 182-186. *)
Definition get_pie_chart_data (df : DataFrame) (categories_selected : list value)
  : result DataFrame :=
  match categories_selected with
  | [] => Ok df
  | _ :: _ =>
      do col <- getitem df "categories" ;
      Ok (boolean_index df (isin col categories_selected))
  end.

(** ** The loader *)

(** The [keep] argument of [drop_duplicates]. *)
Inductive keep : Type := keep_first | keep_last.

(** The [settings] dictionary of [load_and_clean_data]. *)
Record Settings : Type := mkSettings {
  duplicate_subset : string;
  duplicate_keep : keep;
  columns_to_clean : list string
}.

Definition settings : Settings :=
  mkSettings "id" keep_last ["categories"].

(** Positions of the columns of [subset]; a name that is not a column makes
    [drop_duplicates] raise [KeyError] (its message is modelled by the
    quoted name). *)
Fixpoint get_locs (subset : list string) (cols : list (string * dtype))
  : result (list nat) :=
  match subset with
  | [] => Ok []
  | name :: subset' =>
      match get_loc name cols with
      | Some (i, _) => do rest <- get_locs subset' cols ; Ok (i :: rest)
      | None => Raise (KeyError (quote name))
      end
  end.

(** The key of a row: its cells in the columns of the subset. *)
Definition row_key (locs : list nat) (r : Row) : list value :=
  map (fun i => cell_at i r) locs.

Fixpoint key_eqb (k1 k2 : list value) : bool :=
  match k1, k2 with
  | [], [] => true
  | a :: k1', b :: k2' => value_eqb a b && key_eqb k1' k2'
  | _, _ => false
  end.

(** [duplicated(keep='last')]: a row is a duplicate when a later row has its
    key. *)
Fixpoint duplicated_last (keys : list (list value)) : list bool :=
  match keys with
  | [] => []
  | k :: keys' => existsb (key_eqb k) keys' :: duplicated_last keys'
  end.

(** [duplicated(keep='first')]: a row is a duplicate when an earlier row has
    its key. *)
Fixpoint duplicated_first_from (seen keys : list (list value)) : list bool :=
  match keys with
  | [] => []
  | k :: keys' => existsb (key_eqb k) seen :: duplicated_first_from (k :: seen) keys'
  end.

Definition duplicated (keys : list (list value)) (k : keep) : list bool :=
  match k with
  | keep_first => duplicated_first_from [] keys
  | keep_last => duplicated_last keys
  end.

(** [df.empty]: the frame has no row, or no column. *)
Definition df_empty (df : DataFrame) : bool :=
  match rows df, columns df with
  | [], _ => true
  | _ :: _, [] => true
  | _ :: _, _ :: _ => false
  end.

(** [df.drop_duplicates(subset=subset, keep=k)].  An empty frame is returned
    as it is, before the subset is looked at; otherwise a name of the subset
    that is not a column raises [KeyError]. *)
Definition drop_duplicates (df : DataFrame) (subset : list string) (k : keep)
  : result DataFrame :=
  if df_empty df then Ok df
  else
    do locs <- get_locs subset (columns df) ;
    Ok (boolean_index df (map negb (duplicated (map (row_key locs) (rows df)) k))).

(** The lambda of line 39: [x.strip().lower() if isinstance(x, str) else x]. *)
Definition clean_value (x : value) : value :=
  match x with
  | VStr s => VStr (Str.lower (Str.strip s))
  | _ => x
  end.

(** [series.apply(f)].  pandas infers the type of the new column from the
    values [f] returned: [object] when a text is among them, numeric when
    there are values and none is a text. *)
Definition series_apply (f : value -> value) (s : Series) : Series :=
  let vs := map f (s_values s) in
  let d := if existsb is_str vs then object
           else match vs with [] => s_dtype s | _ :: _ => numeric end in
  mkSeries d vs.

Fixpoint set_dtype (name : string) (d : dtype) (cols : list (string * dtype))
  : list (string * dtype) :=
  match cols with
  | [] => []
  | (n, d') :: cols' =>
      if String.eqb n name then (n, d) :: cols' else (n, d') :: set_dtype name d cols'
  end.

Fixpoint set_cells (i : nat) (rs : list Row) (vs : list value) : list Row :=
  match rs, vs with
  | (l, cells) :: rs', v :: vs' => (l, <[i := v]> cells) :: set_cells i rs' vs'
  | _, _ => rs
  end.

(** [df[name] = series] for a column that exists (the only use the program
    makes of it; a frame without the column is returned as it is). *)
Definition setitem (df : DataFrame) (name : string) (s : Series) : DataFrame :=
  match get_loc name (columns df) with
  | Some (i, _) =>
      mkDataFrame (set_dtype name (s_dtype s) (columns df))
                  (set_cells i (rows df) (s_values s))
  | None => df
  end.

(** The loop of lines 37-39. *)
Fixpoint clean_columns (to_clean : list string) (df : DataFrame) : result DataFrame :=
  match to_clean with
  | [] => Ok df
  | column :: to_clean' =>
      if has_column df column then
        do s <- getitem df column ;
        clean_columns to_clean' (setitem df column (series_apply clean_value s))
      else clean_columns to_clean' df
  end.

Section Loader.

(** What [pd.read_csv] gives for each path: the frame it parsed, or the
    exception it raised. *)
Variable read_csv : string -> result DataFrame.

(** The body of the [try], lines 24-41. *)
Definition load_and_clean_data_try (filepath : string) : result DataFrame :=
  do df <- read_csv filepath ;
  do df <- drop_duplicates df [duplicate_subset settings] (duplicate_keep settings) ;
  do df <- clean_columns (columns_to_clean settings) df ;
  Ok df.

(** [load_and_clean_data], lines 21-45: the lines printed and the value
    returned ([None] is Python's [None]).  The handlers of lines 49-56
    follow one that catches every [Exception] and never run. *)
Definition load_and_clean_data (filepath : string)
  : list string * option DataFrame :=
  match load_and_clean_data_try filepath with
  | Ok df => ([], Some df)
  | Raise e => ([("An error occurred: " ++ exception_str e)%string], None)
  end.

End Loader.

(** The options of the province selectbox, line 71, computed from what the
    loader returned: subscripting [None] raises [TypeError]. *)
Definition province_options (df : option DataFrame) : result (list value) :=
  match df with
  | Some df =>
      do col <- getitem df "province" ;
      Ok (VStr "All" :: unique (s_values col))
  | None => Raise (TypeError "'NoneType' object is not subscriptable")
  end.

(** ** Counting *)

Definition is_nan (x : value) : bool :=
  match x with VNaN => true | _ => false end.

(** Number of cells of [vs] equal to [k]. *)
Definition count_value (k : value) (vs : list value) : nat :=
  length (List.filter (value_eqb k) vs).

(** The order in which [groupby] lists its keys: numbers by value, texts
    code point by code point.  (A column holds one kind of key; numbers are
    put before texts to make the order total.) *)
Definition value_leb (a b : value) : bool :=
  match a, b with
  | VNum x, VNum y => Z.leb x y
  | VNum _, _ => true
  | VStr _, VNum _ => false
  | VStr s, VStr t => String.leb s t
  | VStr _, VNaN => true
  | VNaN, VNaN => true
  | VNaN, _ => false
  end.

Definition value_le (a b : value) : Prop := value_leb a b = true.

#[global] Instance value_le_dec (a b : value) : Decision (value_le a b) :=
  bool_eq_dec (value_leb a b) true.

(** A table of counts as a frame: [reset_index] numbers the rows from 0 and
    puts the keys and the counts in two columns. *)
Definition counts_frame (key_name : string) (d : dtype) (count_name : string)
    (counts : list (value * nat)) : DataFrame :=
  mkDataFrame [(key_name, d); (count_name, numeric)]
    (map (fun ic => (fst ic, [fst (snd ic); VNum (Z.of_nat (snd (snd ic)))]))
         (combine (seq 0 (length counts)) counts)).

(** [reset_index] on rows that are in their final order: they are numbered
    from 0. *)
Definition reset_index (rs : list Row) : list Row :=
  map (fun ir => (fst ir, snd (snd ir))) (combine (seq 0 (length rs)) rs).

(** The number in a cell of a count column. *)
Definition count_of (i : nat) (r : Row) : Z :=
  match cell_at i r with VNum z => z | _ => 0%Z end.

(** [df.head(n)] *)
Definition head (n : nat) (df : DataFrame) : DataFrame :=
  mkDataFrame (columns df) (firstn n (rows df)).

(** Rows in descending order of a key. *)
Definition sorted_desc (key : Row -> Z) (rs : list Row) : Prop :=
  Sorted (fun r1 r2 => (key r2 <= key r1)%Z) rs.

Section Aggregator.

(** The sort behind [sort_values(ascending=False)] and [value_counts]:
    pandas calls numpy's quicksort, which says nothing about the order of
    rows with equal keys.  The aggregations take the sort as a parameter;
    all that is known of it is that it permutes the rows and leaves them
    in descending order of the key. *)
Variable argsort_desc : (Row -> Z) -> list Row -> list Row.
Hypothesis argsort_desc_perm : forall key rs, Permutation (argsort_desc key rs) rs.
Hypothesis argsort_desc_sorted : forall key rs, sorted_desc key (argsort_desc key rs).

(** [df.sort_values(by=[name], ascending=False)] on a count column. *)
Definition sort_values_desc (df : DataFrame) (name : string) : result DataFrame :=
  match get_loc name (columns df) with
  | Some (i, _) => Ok (mkDataFrame (columns df) (argsort_desc (count_of i) (rows df)))
  | None => Raise (KeyError (quote name))
  end.

(** [series.value_counts().reset_index()] followed by the renaming of the
    columns to [key_name] and ['count'] (lines 122-123): one row for each
    distinct value that is not NaN, most frequent first, numbered in that
    order. *)
Definition value_counts_frame (s : Series) (key_name : string) : DataFrame :=
  let vs := List.filter (fun x => negb (is_nan x)) (s_values s) in
  let table :=
    counts_frame key_name (s_dtype s) "count"
      (map (fun k => (k, count_value k vs)) (unique vs)) in
  mkDataFrame (columns table)
              (reset_index (argsort_desc (count_of 1) (rows table))).

(** [province_counts], lines 122-123. *)
Definition province_counts (df : DataFrame) : result DataFrame :=
  do col <- getitem df "province" ;
  Ok (value_counts_frame col "province").

(** [df.groupby([name]).size().reset_index(name='count')]: one row for
    each distinct key that is not NaN, keys in ascending order. *)
Definition groupby_size (df : DataFrame) (name : string) : result DataFrame :=
  do col <- getitem df name ;
  let vs := List.filter (fun x => negb (is_nan x)) (s_values col) in
  Ok (counts_frame name (s_dtype col) "count"
        (map (fun k => (k, count_value k vs)) (merge_sort value_le (unique vs)))).

(** [get_top_10_restaurants], lines 211-216. *)
Definition get_top_10_restaurants (df : DataFrame) : result DataFrame :=
  do restaurant_counts <- groupby_size df "name" ;
  do restaurant_counts <- sort_values_desc restaurant_counts "count" ;
  Ok (head 10 restaurant_counts).

End Aggregator.

(** A sort that keeps rows with equal keys in the order it found them
    (numpy's quicksort does so on short arrays, where it is an insertion
    sort). *)
Fixpoint insert_desc (key : Row -> Z) (x : Row) (rs : list Row) : list Row :=
  match rs with
  | [] => [x]
  | y :: rs' =>
      if (key y <=? key x)%Z then x :: rs else y :: insert_desc key x rs'
  end.

Definition stable_sort_desc (key : Row -> Z) (rs : list Row) : list Row :=
  fold_right (insert_desc key) [] rs.

(** ** The rest of the dashboard *)

(** [available_cities], lines 86-92: the options of the city selectbox
    (after ['All']). *)
Definition available_cities (df : DataFrame) (selected_province : value)
  : result (list value) :=
  if py_eq selected_province (VStr "All") then
    do col <- getitem df "city" ;
    Ok (unique (s_values col))
  else
    do pcol <- getitem df "province" ;
    do col <- getitem (boolean_index df (series_eq pcol selected_province)) "city" ;
    Ok (unique (s_values col)).

(** [filtered_city_province_df], lines 83 and 108: the province filter,
    then the city and province filter on its result. *)
Definition filtered_city_province_df (df : DataFrame)
    (selected_city selected_province : value) : result DataFrame :=
  do filtered_df <- filter_data_by_province df selected_province ;
  filter_data_by_city_province filtered_df selected_city selected_province.

(** [get_restaurants_by_top_10], lines 220-223. *)
Definition get_restaurants_by_top_10 (df top_10_restaurants : DataFrame)
  : result DataFrame :=
  do col <- getitem df "name" ;
  do names <- getitem top_10_restaurants "name" ;
  Ok (boolean_index df (isin col (s_values names))).

(** [pd.merge(left, right, on=on, how='left')].  The columns are those of
    [left] followed by those of [right] but the key; a name that both sides
    have outside the key gets the suffix [_x] on the left and [_y] on the
    right.  Every row of [left], in order, is joined to each row of [right]
    that has its key (NaN matches NaN), or to NaN cells when there is none;
    the rows are numbered anew.  Keys of different kinds make pandas raise
    [ValueError]. *)
Definition dtype_eqb (a b : dtype) : bool :=
  match a, b with
  | object, object | numeric, numeric => true
  | _, _ => false
  end.

Definition merge_columns (lcols rrest : list (string * dtype)) (on : string)
  : list (string * dtype) :=
  map (fun c => if String.eqb (fst c) on then c
                else if existsb (String.eqb (fst c)) (map fst rrest)
                     then ((fst c ++ "_x")%string, snd c) else c) lcols
  ++ map (fun c => if existsb (String.eqb (fst c)) (map fst lcols)
                   then ((fst c ++ "_y")%string, snd c) else c) rrest.

Definition merge_row (i j width : nat) (right_rows : list Row) (l : Row)
  : list (list value) :=
  match List.filter (fun r => value_eqb (cell_at i l) (cell_at j r)) right_rows with
  | [] => [snd l ++ repeat VNaN width]
  | m :: ms => map (fun r => snd l ++ delete j (snd r)) (m :: ms)
  end.

Definition merge_left (left right : DataFrame) (on : string) : result DataFrame :=
  match get_loc on (columns left), get_loc on (columns right) with
  | Some (i, dl), Some (j, dr) =>
      if dtype_eqb dl dr then
        let rrest := delete j (columns right) in
        let cells := flat_map (merge_row i j (length rrest) (rows right)) (rows left) in
        Ok (mkDataFrame (merge_columns (columns left) rrest on)
                        (combine (seq 0 (length cells)) cells))
      else
        Raise (OtherException "You are trying to merge on columns of different kinds")
  | _, _ => Raise (KeyError (quote on))
  end.

(** Two-column group keys: equality and the order in which [groupby]
    lists them (by the first column, then by the second). *)
Definition pair_eqb (a b : value * value) : bool :=
  value_eqb (fst a) (fst b) && value_eqb (snd a) (snd b).

Definition pair_leb (a b : value * value) : bool :=
  if value_eqb (fst a) (fst b) then value_leb (snd a) (snd b)
  else value_leb (fst a) (fst b).

Definition pair_le (a b : value * value) : Prop := pair_leb a b = true.

#[global] Instance pair_le_dec (a b : value * value) : Decision (pair_le a b) :=
  bool_eq_dec (pair_leb a b) true.

Definition count_pair (k : value * value) (ps : list (value * value)) : nat :=
  length (List.filter (pair_eqb k) ps).

Fixpoint unique_pairs (ps : list (value * value)) : list (value * value) :=
  match ps with
  | [] => []
  | p :: ps' => p :: List.filter (fun x => negb (pair_eqb p x)) (unique_pairs ps')
  end.

(** [df.groupby([name1, name2]).size().reset_index(name='count')]: one row
    for each distinct pair of keys neither of which is NaN, in ascending
    order of the keys, with the number of rows that have the pair. *)
Definition groupby2_size (df : DataFrame) (name1 name2 : string) : result DataFrame :=
  do col1 <- getitem df name1 ;
  do col2 <- getitem df name2 ;
  let ps := List.filter (fun k => negb (is_nan (fst k)) && negb (is_nan (snd k)))
                        (combine (s_values col1) (s_values col2)) in
  let keys := merge_sort pair_le (unique_pairs ps) in
  Ok (mkDataFrame [(name1, s_dtype col1); (name2, s_dtype col2); ("count", numeric)]
        (map (fun ik => (fst ik, [fst (snd ik); snd (snd ik);
                                  VNum (Z.of_nat (count_pair (snd ik) ps))]))
             (combine (seq 0 (length keys)) keys))).

(** [category_counts], lines 165-166: the data of the bar chart. *)
Definition category_counts (df : DataFrame) (categories_selected : list value)
    (selected_province : value) : result DataFrame :=
  do filtered_data <- get_category_data df categories_selected selected_province ;
  groupby2_size filtered_data "province" "categories".

Section Dashboard.

Variable argsort_desc : (Row -> Z) -> list Row -> list Row.

(** [series.value_counts()]: the distinct values that are not NaN, each
    with its number of occurrences, most frequent first. *)
Definition value_counts (s : Series) : list (value * Z) :=
  let vs := List.filter (fun x => negb (is_nan x)) (s_values s) in
  let table :=
    counts_frame "index" (s_dtype s) "count"
      (map (fun k => (k, count_value k vs)) (unique vs)) in
  map (fun r => (cell_at 0 r, count_of 1 r))
      (argsort_desc (count_of 1) (rows table)).

(** [get_top_restaurants_by_city], lines 203-207. *)
Definition get_top_restaurants_by_city (df : DataFrame) (city : value)
  : result (list (value * Z)) :=
  do ccol <- getitem df "city" ;
  do clow <- str_lower ccol ;
  do c <- py_lower city ;
  let city_data := boolean_index df (series_eq clow c) in
  do names <- getitem city_data "name" ;
  Ok (firstn 10 (value_counts names)).

(** [map_data], lines 122-126: the filtered frame joined to the counts of
    its provinces. *)
Definition map_data (filtered_city_province_df : DataFrame) : result DataFrame :=
  do province_counts <- province_counts argsort_desc filtered_city_province_df ;
  merge_left filtered_city_province_df province_counts "province".

(** [top_10_data], lines 230-246: the province filter with the sentinel
    ['All'], the ten most common names of its result, and the rows of that
    result that bear one of them. *)
Definition top_10_data (df : DataFrame) (selected_province : value)
  : result DataFrame :=
  do filtered_df <- filtered_df_top10 df selected_province ;
  do top_10_restaurants_data <- get_top_10_restaurants argsort_desc filtered_df ;
  get_restaurants_by_top_10 filtered_df top_10_restaurants_data.

(** [type_counts], lines 190-191: the data of the pie chart. *)
Definition type_counts (df : DataFrame) (categories_selected : list value)
  : result (list (value * Z)) :=
  do pie_data <- get_pie_chart_data df categories_selected ;
  do col <- getitem pie_data "categories" ;
  Ok (value_counts col).

End Dashboard.

(** * Properties *)

(** ** Vocabulary of the statements *)

(** The frame with the columns of [df] and those of its rows that satisfy
    [p], in the order [df] has them. *)
Definition restrict (df : DataFrame) (p : Row -> bool) : DataFrame :=
  mkDataFrame (columns df) (List.filter p (rows df)).

(** The kind of the column called [name]. *)
Definition column_dtype (df : DataFrame) (name : string) : option dtype :=
  match get_loc name (columns df) with
  | Some (_, d) => Some d
  | None => None
  end.

(** A cell matches the text [s] when both are folded to lower case. *)
Definition ci_match (c : value) (s : string) : bool :=
  match c with
  | VStr t => String.eqb (Str.lower t) (Str.lower s)
  | _ => false
  end.

(** The row as the loader leaves it: its cell in the categories column,
    when the frame has one, is replaced by its cleaned value. *)
Definition clean_row (df : DataFrame) (r : Row) : Row :=
  match get_loc "categories" (columns df) with
  | Some (j, _) => (fst r, <[j := clean_value (cell_at j r)]> (snd r))
  | None => r
  end.

(** The last row of [df] whose cell in column [name] is [v]. *)
Definition last_row_with (df : DataFrame) (name : string) (v : value) : option Row :=
  last (List.filter (fun r => value_eqb (cell df name r) v) (rows df)).

(** The rows that [drop_duplicates(keep='last')] keeps when the key is the
    cell at position [i]. *)
Definition kept_rows (i : nat) (rs : list Row) : list Row :=
  select_rows rs (map negb (duplicated_last (map (row_key [i]) rs))).

(** The position of a column, whatever its kind. *)
Definition loc_of (name : string) (cols : list (string * dtype)) : option nat :=
  option_map fst (get_loc name cols).


(** The values of a column, row by row. *)
Definition column_values (df : DataFrame) (name : string) : list value :=
  map (cell df name) (rows df).

(** Position of the first cell of [vs] equal to [k]. *)
Fixpoint first_index (k : value) (vs : list value) : nat :=
  match vs with
  | [] => 0
  | v :: vs' => if value_eqb v k then 0 else S (first_index k vs')
  end.

(** Rows of [top] with equal counts come in the order in which their names
    are first met in [df]. *)
Definition ties_by_first_encounter (df top : DataFrame) : Prop :=
  forall i j r1 r2,
    i < j -> rows top !! i = Some r1 -> rows top !! j = Some r2 ->
    cell top "count" r1 = cell top "count" r2 ->
    first_index (cell top "name" r1) (column_values df "name")
    < first_index (cell top "name" r2) (column_values df "name").

(** The frame the loader builds from a frame read whose ['id'] column is
    at position [i]: the rows kept, cleaned, and the categories column
    typed anew. *)
Definition loaded_frame (raw : DataFrame) (i : nat) : DataFrame :=
  let kept := kept_rows i (rows raw) in
  match get_loc "categories" (columns raw) with
  | Some (j, d) =>
      mkDataFrame
        (set_dtype "categories"
           (s_dtype (series_apply clean_value (mkSeries d (map (cell_at j) kept))))
           (columns raw))
        (map (clean_row raw) kept)
  | None => mkDataFrame (columns raw) kept
  end.

(** Whether the table of lines 110-119 shows row [r] of [df] when the
    texts [c] and [p] are selected as city and province: the test of the
    province filter, then the test of the city and province filter. *)
Definition shown (df : DataFrame) (c p : string) (r : Row) : bool :=
  (String.eqb p "LA" || py_eq (cell df "province" r) (VStr p))
  && (if String.eqb c "All" then py_eq (cell df "province" r) (VStr p)
      else ci_match (cell df "city" r) c && ci_match (cell df "province" r) p).

(** The cells of the row that a table of counts has for the key [k] when
    it counts the values [vs]. *)
Definition count_entry (vs : list value) (k : value) : list value :=
  [k; VNum (Z.of_nat (count_value k vs))].

(** The values of a column that are not NaN. *)
Definition present_values (df : DataFrame) (name : string) : list value :=
  List.filter (fun x => negb (is_nan x)) (column_values df name).

(** The cell that the join of lines 122-126 adds to row [r] of [df]: the
    number of records of [df] with the province of [r], or NaN when [r] has
    no province. *)
Definition province_count (df : DataFrame) (r : Row) : value :=
  if is_nan (cell df "province" r) then VNaN
  else VNum (Z.of_nat (count_value (cell df "province" r)
                                   (column_values df "province"))).

(** The test of [get_category_data] on a row: its category is one of the
    selected ones (any category when none is selected) and its province is
    the selected one. *)
Definition selected (df : DataFrame) (S : list value) (p : value) (r : Row) : bool :=
  match S with
  | [] => true
  | _ :: _ => existsb (value_eqb (cell df "categories" r)) S
  end && py_eq (cell df "province" r) p.

(** pandas grants [.str] on the column [name] of [df]: it is an [object]
    column that holds a text, or nothing but missing cells. *)
Definition str_column (df : DataFrame) (name : string) : bool :=
  match get_loc name (columns df) with
  | Some (i, d) => has_str_accessor (mkSeries d (map (cell_at i) (rows df)))
  | None => false
  end.

(** The column [name] of [df] is an [object] column without a number: each
    of its cells is a text or is missing. *)
Definition text_column (df : DataFrame) (name : string) : bool :=
  match get_loc name (columns df) with
  | Some (i, object) =>
      forallb (fun r => match cell_at i r with VNum _ => false | _ => true end)
              (rows df)
  | _ => false
  end.

(** ** Sample data *)

Module Sample.

Definition cols : list (string * dtype) :=
  [("id", object); ("name", object); ("city", object);
   ("province", object); ("categories", object)].

Definition record (label : nat) (id name city province categories : string) : Row :=
  (label, [VStr id; VStr name; VStr city; VStr province; VStr categories]).

(** The three rows of the example of the specification (two of them share
    the identifier 1), with category cells to clean. *)
Definition raw : DataFrame :=
  mkDataFrame cols
    [record 0 "1" "A" "LA" "CA" "Burgers";
     record 1 "2" "B" "LA" "CA" " burgers ";
     record 2 "1" "A2" "LA" "CA" " Pizza "].

Definition cleaned : DataFrame :=
  mkDataFrame cols
    [record 1 "2" "B" "LA" "CA" "burgers";
     record 2 "1" "A2" "LA" "CA" "pizza"].

(** A file system with one readable file. *)
Definition read_csv (path : string) : result DataFrame :=
  if String.eqb path "data.csv" then Ok raw
  else Raise (FileNotFoundError "[Errno 2] No such file or directory").

(** A frame with one row whose province cell is empty in the file. *)
Definition missing_province : DataFrame :=
  mkDataFrame cols
    [record 0 "1" "A" "Boston" "MA" "burgers";
     (1, [VStr "2"; VStr "B"; VStr "Salem"; VNaN; VStr "pizza"])].

(** Two restaurants with one location each, the one called B first. *)
Definition b_then_a : DataFrame :=
  mkDataFrame cols
    [record 0 "1" "B" "Boston" "MA" "burgers";
     record 1 "2" "A" "Boston" "MA" "pizza"].

(** The same two restaurants, the one called A first. *)
Definition a_then_b : DataFrame :=
  mkDataFrame cols
    [record 1 "2" "A" "Boston" "MA" "pizza";
     record 0 "1" "B" "Boston" "MA" "burgers"].

(** Locations in two provinces. *)
Definition two_provinces : DataFrame :=
  mkDataFrame cols
    [record 0 "1" "A" "Boston" "MA" "burgers";
     record 1 "2" "B" "boston" "ma" "pizza";
     record 2 "3" "A" "Austin" "TX" "burgers,pizza"].

End Sample.

(** ** Equality tests *)

Lemma py_eq_true a b : py_eq a b = true <-> a = b /\ a <> VNaN.
Proof.
  destruct a, b; simpl; try (split; [discriminate | intros [? ?]; congruence]).
  - rewrite String.eqb_eq. split; [intros ->; split; congruence | intros [? _]; congruence].
  - rewrite Z.eqb_eq. split; [intros ->; split; congruence | intros [? _]; congruence].
Qed.

Lemma value_eqb_eq a b : value_eqb a b = true <-> a = b.
Proof.
  destruct a, b; simpl; try (split; [discriminate | congruence]).
  - rewrite String.eqb_eq. split; congruence.
  - rewrite Z.eqb_eq. split; congruence.
  - split; reflexivity.
Qed.

Lemma value_eqb_refl a : value_eqb a a = true.
Proof. apply value_eqb_eq; reflexivity. Qed.

Lemma value_eqb_sym a b : value_eqb a b = value_eqb b a.
Proof.
  destruct (value_eqb a b) eqn:E, (value_eqb b a) eqn:F; try reflexivity.
  - apply value_eqb_eq in E. subst. rewrite value_eqb_refl in F. discriminate.
  - apply value_eqb_eq in F. subst. rewrite value_eqb_refl in E. discriminate.
Qed.

Lemma existsb_value_eqb_In c vs :
  existsb (value_eqb c) vs = true <-> In c vs.
Proof.
  rewrite existsb_exists. split.
  - intros [x [Hin Heq]]. apply value_eqb_eq in Heq. subst. exact Hin.
  - intros Hin. exists c. split; [exact Hin | apply value_eqb_refl].
Qed.

(** ** Masks *)

Lemma select_rows_map (p : Row -> bool) rs :
  select_rows rs (map p rs) = List.filter p rs.
Proof.
  induction rs as [|r rs IH]; simpl; [reflexivity|].
  rewrite IH. reflexivity.
Qed.

Lemma mask_and_map {A} (p q : A -> bool) (l : list A) :
  mask_and (map p l) (map q l) = map (fun x => p x && q x) l.
Proof.
  induction l as [|x l IH]; simpl; [reflexivity|]. rewrite IH. reflexivity.
Qed.

Lemma filter_ext_in_rows (p q : Row -> bool) rs :
  (forall r, In r rs -> p r = q r) -> List.filter p rs = List.filter q rs.
Proof.
  induction rs as [|r rs IH]; intros H; simpl; [reflexivity|].
  rewrite (H r (or_introl eq_refl)), IH; [reflexivity|].
  intros r' Hr'. apply H. right. exact Hr'.
Qed.

Lemma filter_all (p : Row -> bool) rs :
  List.filter p rs = rs <-> forall r, In r rs -> p r = true.
Proof.
  induction rs as [|r rs IH]; simpl.
  - split; [intros _ ? [] | reflexivity].
  - destruct (p r) eqn:E.
    + split.
      * intros H. injection H as H. intros r' [<- | Hr']; [exact E|].
        apply IH; assumption.
      * intros H. f_equal. apply IH. intros r' Hr'. apply H. right. exact Hr'.
    + split.
      * intros H. exfalso.
        assert (Hl : length (List.filter p rs) = S (length rs)) by (rewrite H; reflexivity).
        pose proof (List.filter_length_le p rs). lia.
      * intros H. specialize (H r (or_introl eq_refl)). congruence.
Qed.

(** ** Reading a column *)

Lemma getitem_Some df name i d :
  get_loc name (columns df) = Some (i, d) ->
  getitem df name = Ok (mkSeries d (map (cell_at i) (rows df))) /\
  (forall r, cell df name r = cell_at i r).
Proof.
  intros H. unfold getitem, cell. rewrite H. split; reflexivity.
Qed.

Lemma has_column_loc df name :
  has_column df name = true -> exists i d, get_loc name (columns df) = Some (i, d).
Proof.
  unfold has_column. destruct (get_loc name (columns df)) as [[i d]|]; [|discriminate].
  intros _. exists i, d. reflexivity.
Qed.

Lemma column_dtype_loc df name d :
  column_dtype df name = Some d -> exists i, get_loc name (columns df) = Some (i, d).
Proof.
  unfold column_dtype. destruct (get_loc name (columns df)) as [[i d']|]; [|discriminate].
  intros [= ->]. exists i. reflexivity.
Qed.

(** [df[df[name] == x]] keeps the rows whose cell in [name] equals [x]. *)
Lemma boolean_index_series_eq df name x :
  has_column df name = true ->
  (do col <- getitem df name ; Ok (boolean_index df (series_eq col x)))
  = Ok (restrict df (fun r => py_eq (cell df name r) x)).
Proof.
  intros H. destruct (has_column_loc _ _ H) as (i & d & Hloc).
  destruct (getitem_Some _ _ _ _ Hloc) as [-> Hcell]. simpl.
  unfold boolean_index, restrict, series_eq. simpl.
  rewrite map_map, select_rows_map. do 2 f_equal.
  apply filter_ext_in_rows. intros r _. rewrite Hcell. reflexivity.
Qed.

(** [df[df[name].isin(vs)]] keeps the rows whose cell in [name] is one of
    [vs]. *)
Lemma boolean_index_isin df name vs :
  has_column df name = true ->
  (do col <- getitem df name ; Ok (boolean_index df (isin col vs)))
  = Ok (restrict df (fun r => existsb (value_eqb (cell df name r)) vs)).
Proof.
  intros H. destruct (has_column_loc _ _ H) as (i & d & Hloc).
  destruct (getitem_Some _ _ _ _ Hloc) as [-> Hcell]. simpl.
  unfold boolean_index, restrict, isin. simpl.
  rewrite map_map, select_rows_map. do 2 f_equal.
  apply filter_ext_in_rows. intros r _. rewrite Hcell. reflexivity.
Qed.

Lemma restrict_rows_In df p r :
  In r (rows (restrict df p)) <-> In r (rows df) /\ p r = true.
Proof. unfold restrict. simpl. apply filter_In. Qed.

Lemma restrict_id df p :
  restrict df p = df <-> forall r, In r (rows df) -> p r = true.
Proof.
  rewrite <- filter_all. destruct df as [cols rs]. unfold restrict. simpl.
  split; [intros [= H]; exact H | intros ->; reflexivity].
Qed.

(** ** The province filter *)

(** What [filter_data_by_province] computes: the whole frame for the text
    ['LA'], the rows of the given province for anything else. *)
Lemma filter_data_by_province_spec df p :
  has_column df "province" = true ->
  (p = VStr "LA" -> filter_data_by_province df p = Ok df) /\
  (p <> VStr "LA" ->
   filter_data_by_province df p = Ok (restrict df (fun r => py_eq (cell df "province" r) p))).
Proof.
  intros H. unfold filter_data_by_province. split.
  - intros ->. reflexivity.
  - intros Hp. destruct (py_eq p (VStr "LA")) eqn:E.
    + apply py_eq_true in E. tauto.
    + apply boolean_index_series_eq. exact H.
Qed.

(** The filter of lines 230-233 has the sentinel ['All']: it is the
    identity there, and the exact-match filter for any other value. *)
Lemma filtered_df_top10_spec df p :
  has_column df "province" = true ->
  filtered_df_top10 df (VStr "All") = Ok df /\
  (p <> VStr "All" ->
   filtered_df_top10 df p = Ok (restrict df (fun r => py_eq (cell df "province" r) p))).
Proof.
  intros H. unfold filtered_df_top10. split; [reflexivity|].
  intros Hp. destruct (py_eq p (VStr "All")) eqn:E.
  - apply py_eq_true in E. tauto.
  - apply boolean_index_series_eq. exact H.
Qed.

(** C1, at a concrete frame: [filter_data_by_province] with ['All'] does not
    return the frame but the rows whose province is the text ['All'] (none
    here), and with ['LA'] it returns rows of other provinces too. *)
Theorem filter_data_by_province_sentinel :
  filter_data_by_province Sample.two_provinces (VStr "All")
  = Ok (mkDataFrame Sample.cols []) /\
  filter_data_by_province Sample.two_provinces (VStr "All")
  <> Ok Sample.two_provinces /\
  filter_data_by_province Sample.two_provinces (VStr "LA")
  = Ok Sample.two_provinces /\
  filter_data_by_province Sample.two_provinces (VStr "LA")
  <> Ok (restrict Sample.two_provinces
           (fun r => py_eq (cell Sample.two_provinces "province" r) (VStr "LA"))).
Proof.
  repeat split; try reflexivity; vm_compute; discriminate.
Qed.

(** ** The category filters *)

(** C9: with no category selected, [get_category_data] returns exactly the
    rows whose province equals the selected one, so it returns the frame
    unchanged only when every row is of that province; with the selection
    ['All'] it keeps the rows whose province is the text ['All']. *)
Theorem get_category_data_no_selection df p :
  has_column df "province" = true ->
  get_category_data df [] p
  = Ok (restrict df (fun r => py_eq (cell df "province" r) p)) /\
  (forall r, In r (rows (restrict df (fun r => py_eq (cell df "province" r) p)))
             <-> In r (rows df) /\ cell df "province" r = p /\ p <> VNaN) /\
  (get_category_data df [] p = Ok df
   <-> forall r, In r (rows df) -> cell df "province" r = p /\ p <> VNaN) /\
  (forall r, In r (rows (restrict df (fun r => py_eq (cell df "province" r) (VStr "All"))))
             -> cell df "province" r = VStr "All").
Proof.
  intros H.
  assert (E : get_category_data df [] p
              = Ok (restrict df (fun r => py_eq (cell df "province" r) p))).
  { unfold get_category_data. simpl. apply boolean_index_series_eq. exact H. }
  assert (M : forall q r, py_eq (cell df "province" r) q = true
                          <-> cell df "province" r = q /\ q <> VNaN).
  { intros q r. rewrite py_eq_true. split; intros [-> ?]; split; congruence. }
  split; [exact E|]. split; [|split].
  - intros r. rewrite restrict_rows_In, M. reflexivity.
  - rewrite E. split.
    + intros [= Hid]. intros r Hr. apply M.
      apply (proj1 (restrict_id df _) Hid). exact Hr.
    + intros Hall. f_equal. apply restrict_id. intros r Hr. apply M, Hall, Hr.
  - intros r Hr. apply restrict_rows_In in Hr. destruct Hr as [_ Hr].
    apply M in Hr. tauto.
Qed.

Lemma get_category_data_no_selection_witness :
  get_category_data Sample.two_provinces [] (VStr "All")
  = Ok (mkDataFrame Sample.cols []).
Proof.
  rewrite (proj1 (get_category_data_no_selection Sample.two_provinces (VStr "All")
                    eq_refl)).
  reflexivity.
Defined.

(** C5: [get_pie_chart_data] returns the frame unchanged for an empty
    selection, and otherwise exactly the rows whose category cell, compared
    as a whole, is one of the selected values. *)
Theorem get_pie_chart_data_spec df (S : list value) :
  has_column df "categories" = true ->
  get_pie_chart_data df [] = Ok df /\
  (S <> [] ->
   get_pie_chart_data df S
   = Ok (restrict df (fun r => existsb (value_eqb (cell df "categories" r)) S))) /\
  (forall r,
      In r (rows (restrict df (fun r => existsb (value_eqb (cell df "categories" r)) S)))
      <-> In r (rows df) /\ In (cell df "categories" r) S).
Proof.
  intros H. split; [reflexivity|]. split.
  - intros HS. destruct S as [|v S']; [congruence|].
    unfold get_pie_chart_data. apply boolean_index_isin. exact H.
  - intros r. rewrite restrict_rows_In, existsb_value_eqb_In. reflexivity.
Qed.

Lemma get_pie_chart_data_spec_witness :
  get_pie_chart_data Sample.two_provinces [VStr "burgers"]
  = Ok (mkDataFrame Sample.cols
          [Sample.record 0 "1" "A" "Boston" "MA" "burgers"]).
Proof.
  rewrite (proj1 (proj2 (get_pie_chart_data_spec Sample.two_provinces
                           [VStr "burgers"] eq_refl))).
  - reflexivity.
  - discriminate.
Defined.

(** ** The city and province filter *)

Lemma ci_match_spec c s :
  ci_match c s = true <-> exists t, c = VStr t /\ Str.lower t = Str.lower s.
Proof.
  destruct c as [t| |]; simpl.
  - rewrite String.eqb_eq. split.
    + intros E. exists t. split; [reflexivity | exact E].
    + intros (t' & [= <-] & E). exact E.
  - split; [discriminate | intros (t & ? & _); discriminate].
  - split; [discriminate | intros (t & ? & _); discriminate].
Qed.

Lemma py_eq_lowered c s :
  py_eq (match c with VStr t => VStr (Str.lower t) | _ => VNaN end)
        (VStr (Str.lower s))
  = ci_match c s.
Proof. destruct c; reflexivity. Qed.

Lemma str_column_loc df name :
  str_column df name = true ->
  exists i d,
    get_loc name (columns df) = Some (i, d) /\
    has_str_accessor (mkSeries d (map (cell_at i) (rows df))) = true.
Proof.
  unfold str_column. destruct (get_loc name (columns df)) as [[i d]|]; [|discriminate].
  intros H. exists i, d. split; [reflexivity | exact H].
Qed.

Lemma str_column_has df name : str_column df name = true -> has_column df name = true.
Proof.
  intros H. destruct (str_column_loc _ _ H) as (i & d & Hloc & _).
  unfold has_column. rewrite Hloc. reflexivity.
Qed.

(** The second branch of [filter_data_by_city_province] on columns that
    have [.str], for text arguments. *)
Lemma filter_data_by_city_province_other df (c p : string) :
  str_column df "city" = true ->
  str_column df "province" = true ->
  c <> "All" ->
  filter_data_by_city_province df (VStr c) (VStr p)
  = Ok (restrict df (fun r => ci_match (cell df "city" r) c
                              && ci_match (cell df "province" r) p)).
Proof.
  intros Hc Hp Hne.
  destruct (str_column_loc _ _ Hc) as (i & di & Hi & Hsi).
  destruct (str_column_loc _ _ Hp) as (j & dj & Hj & Hsj).
  unfold filter_data_by_city_province.
  assert (E : py_eq (VStr c) (VStr "All") = false).
  { cbn [py_eq]. apply String.eqb_neq. exact Hne. }
  rewrite E.
  destruct (getitem_Some _ _ _ _ Hi) as [-> Hci].
  destruct (getitem_Some _ _ _ _ Hj) as [-> Hcj].
  cbn [bind]. unfold str_lower at 1. rewrite Hsi. cbn [bind py_lower].
  unfold str_lower. rewrite Hsj. cbn [bind s_values].
  unfold boolean_index, restrict, series_eq. cbn [s_values].
  rewrite !map_map, mask_and_map, select_rows_map. do 2 f_equal.
  apply filter_ext_in_rows. intros r _.
  rewrite Hci, Hcj, !py_eq_lowered. reflexivity.
Qed.

(** C4: with the city ['All'], [filter_data_by_city_province] returns the
    rows whose province equals the given one; with any other city, on
    columns that have [.str], it returns exactly the rows whose city and
    province both match the given texts when both sides are folded to lower
    case. *)
Theorem filter_data_by_city_province_spec df (c p : string) :
  (has_column df "province" = true ->
   forall q : value,
     filter_data_by_city_province df (VStr "All") q
     = Ok (restrict df (fun r => py_eq (cell df "province" r) q))) /\
  (str_column df "city" = true -> str_column df "province" = true ->
   c <> "All" ->
   filter_data_by_city_province df (VStr c) (VStr p)
   = Ok (restrict df (fun r => ci_match (cell df "city" r) c
                               && ci_match (cell df "province" r) p))) /\
  (forall r,
      In r (rows (restrict df (fun r => ci_match (cell df "city" r) c
                                        && ci_match (cell df "province" r) p)))
      <-> In r (rows df) /\
          exists tc tp, cell df "city" r = VStr tc /\
                        cell df "province" r = VStr tp /\
                        Str.lower tc = Str.lower c /\
                        Str.lower tp = Str.lower p).
Proof.
  split; [|split].
  - intros Hp q. unfold filter_data_by_city_province. simpl.
    apply boolean_index_series_eq, Hp.
  - apply filter_data_by_city_province_other.
  - intros r. rewrite restrict_rows_In, andb_true_iff, !ci_match_spec.
    split.
    + intros [Hr [(tc & E1 & E2) (tp & E3 & E4)]]. split; [exact Hr|].
      exists tc, tp. tauto.
    + intros [Hr (tc & tp & E1 & E3 & E2 & E4)]. split; [exact Hr|].
      split; [exists tc | exists tp]; tauto.
Qed.

Lemma filter_data_by_city_province_spec_witness :
  filter_data_by_city_province Sample.two_provinces (VStr "BOSTON") (VStr "Ma")
  = Ok (mkDataFrame Sample.cols
          [Sample.record 0 "1" "A" "Boston" "MA" "burgers";
           Sample.record 1 "2" "B" "boston" "ma" "pizza"]).
Proof.
  rewrite (proj1 (proj2 (filter_data_by_city_province_spec Sample.two_provinces
                           "BOSTON" "Ma")) eq_refl eq_refl).
  - reflexivity.
  - discriminate.
Defined.


(** ** Trimming and lowering text *)

Module StrFacts.
Import Str.

Ltac by_code_point c :=
  destruct c as [[] [] [] [] [] [] [] []]; vm_compute; reflexivity.

Lemma is_space_lower_char c : is_space (lower_char c) = is_space c.
Proof. by_code_point c. Qed.

Lemma is_upper_lower_char c : is_upper (lower_char c) = false.
Proof. by_code_point c. Qed.

Lemma lower_char_not_upper c : is_upper c = false -> lower_char c = c.
Proof. unfold lower_char. intros ->. reflexivity. Qed.

Lemma no_upper_lower s : no_upper (lower s) = true.
Proof.
  induction s as [|c s IH]; simpl; [reflexivity|].
  rewrite is_upper_lower_char, IH. reflexivity.
Qed.

Lemma lower_no_upper s : no_upper s = true -> lower s = s.
Proof.
  induction s as [|c s IH]; simpl; [reflexivity|].
  intros H. apply andb_true_iff in H. destruct H as [Hc Hs].
  apply negb_true_iff in Hc.
  rewrite (lower_char_not_upper c Hc), (IH Hs). reflexivity.
Qed.

Lemma leading_space_lower s : leading_space (lower s) = leading_space s.
Proof. destruct s as [|c s]; simpl; [reflexivity | apply is_space_lower_char]. Qed.

Lemma trailing_space_lower s : trailing_space (lower s) = trailing_space s.
Proof.
  induction s as [|c s IH]; [reflexivity|].
  destruct s as [|c' s]; simpl in *; [apply is_space_lower_char | exact IH].
Qed.

Lemma leading_space_lstrip s : leading_space (lstrip s) = false.
Proof.
  induction s as [|c s IH]; simpl; [reflexivity|].
  destruct (is_space c) eqn:E; [exact IH | simpl; exact E].
Qed.

Lemma lstrip_fixed s : leading_space s = false -> lstrip s = s.
Proof. destruct s as [|c s]; simpl; [reflexivity | intros ->; reflexivity]. Qed.

Lemma leading_space_rstrip s :
  leading_space s = false -> leading_space (rstrip s) = false.
Proof.
  destruct s as [|c s]; simpl; [reflexivity|]. intros E.
  destruct (rstrip s); [rewrite E|]; simpl; [exact E | exact E].
Qed.

Lemma trailing_space_rstrip s : trailing_space (rstrip s) = false.
Proof.
  induction s as [|c s IH]; simpl; [reflexivity|].
  destruct (rstrip s) as [|c' t] eqn:E.
  - destruct (is_space c) eqn:Ec; simpl; [reflexivity | exact Ec].
  - exact IH.
Qed.

Lemma rstrip_fixed s : trailing_space s = false -> rstrip s = s.
Proof.
  induction s as [|c s IH]; [reflexivity|].
  destruct s as [|c' s].
  - simpl. intros ->. reflexivity.
  - intros H. change (trailing_space (String c' s) = false) in H.
    change (rstrip (String c (String c' s)))
      with (match rstrip (String c' s) with
            | EmptyString => if is_space c then EmptyString else String c EmptyString
            | t => String c t
            end).
    rewrite (IH H). reflexivity.
Qed.

(** The text that [x.strip().lower()] returns is trimmed and lower-case,
    and trimming or lowering it again changes nothing. *)
Lemma strip_lower_clean s :
  let t := lower (strip s) in
  leading_space t = false /\ trailing_space t = false /\ no_upper t = true /\
  strip t = t /\ lower t = t.
Proof.
  intros t. subst t.
  assert (L : leading_space (lower (strip s)) = false).
  { rewrite leading_space_lower. unfold strip.
    apply leading_space_rstrip, leading_space_lstrip. }
  assert (T : trailing_space (lower (strip s)) = false).
  { rewrite trailing_space_lower. unfold strip. apply trailing_space_rstrip. }
  repeat split.
  - exact L.
  - exact T.
  - apply no_upper_lower.
  - unfold strip at 1. rewrite (lstrip_fixed _ L). apply rstrip_fixed, T.
  - apply lower_no_upper, no_upper_lower.
Qed.

End StrFacts.

(** ** Column positions *)

Lemma get_loc_distinct n1 n2 cols i j d1 d2 :
  n1 <> n2 ->
  get_loc n1 cols = Some (i, d1) -> get_loc n2 cols = Some (j, d2) -> i <> j.
Proof.
  intros Hne. revert i j.
  induction cols as [|[n d] cols IH]; intros i j; simpl; [discriminate|].
  destruct (String.eqb n n1) eqn:E1, (String.eqb n n2) eqn:E2.
  - apply String.eqb_eq in E1, E2. congruence.
  - intros [= <- _]. destruct (get_loc n2 cols) as [[j' ?]|]; [|discriminate].
    intros [= <- _]. discriminate.
  - destruct (get_loc n1 cols) as [[i' ?]|]; [|discriminate].
    intros [= <- _] [= <- _]. discriminate.
  - destruct (get_loc n1 cols) as [[i' ?]|]; [|discriminate].
    destruct (get_loc n2 cols) as [[j' ?]|]; [|discriminate].
    intros [= <- <-] [= <- <-]. intros [= E]. revert E. apply IH; reflexivity.
Qed.

Lemma loc_of_set_dtype name n d cols :
  loc_of n (set_dtype name d cols) = loc_of n cols.
Proof.
  unfold loc_of. induction cols as [|[n0 d0] cols IH]; simpl; [reflexivity|].
  destruct (String.eqb n0 name); simpl.
  - destruct (String.eqb n0 n); reflexivity.
  - destruct (String.eqb n0 n); [reflexivity|].
    destruct (get_loc n (set_dtype name d cols)) as [[a ?]|],
             (get_loc n cols) as [[b ?]|]; simpl in *; congruence.
Qed.

Lemma cell_same_loc df df' name r :
  loc_of name (columns df') = loc_of name (columns df) ->
  cell df' name r = cell df name r.
Proof.
  unfold loc_of, cell.
  destruct (get_loc name (columns df')) as [[a ?]|],
           (get_loc name (columns df)) as [[b ?]|]; simpl; congruence.
Qed.

(** ** Removing duplicates *)

Lemma existsb_row_key i a rs :
  existsb (key_eqb [a]) (map (row_key [i]) rs)
  = existsb (fun r' => value_eqb a (cell_at i r')) rs.
Proof.
  induction rs as [|r rs IH]; [reflexivity|].
  cbn [map existsb]. rewrite IH. unfold row_key. cbn [map key_eqb].
  rewrite andb_true_r. reflexivity.
Qed.

Lemma kept_rows_cons i r rs :
  kept_rows i (r :: rs)
  = if existsb (fun r' => value_eqb (cell_at i r) (cell_at i r')) rs
    then kept_rows i rs else r :: kept_rows i rs.
Proof.
  unfold kept_rows. cbn [map duplicated_last].
  change (row_key [i] r) with [cell_at i r]. rewrite existsb_row_key.
  cbn [select_rows]. destruct (existsb _ rs); reflexivity.
Qed.

Lemma kept_rows_sublist i rs : sublist (kept_rows i rs) rs.
Proof.
  induction rs as [|r rs IH]; [constructor|].
  rewrite kept_rows_cons. destruct (existsb _ rs); constructor; exact IH.
Qed.

(** Of the rows with a given key, the last one is kept and no other. *)
Lemma kept_rows_filter i v rs :
  List.filter (fun r => value_eqb (cell_at i r) v) (kept_rows i rs)
  = match last (List.filter (fun r => value_eqb (cell_at i r) v) rs) with
    | Some r => [r]
    | None => []
    end.
Proof.
  induction rs as [|r rs IH]; [reflexivity|].
  rewrite kept_rows_cons.
  set (F := List.filter (fun r => value_eqb (cell_at i r) v) rs) in *.
  assert (HF : forall x F', F = x :: F' ->
               In x rs /\ value_eqb (cell_at i x) v = true).
  { intros x F' E.
    apply (proj1 (filter_In (fun r => value_eqb (cell_at i r) v) x rs)).
    fold F. rewrite E. left. reflexivity. }
  destruct (existsb _ rs) eqn:Ex.
  - cbn [List.filter]. destruct (value_eqb (cell_at i r) v) eqn:Ev; [|exact IH].
    fold F. destruct F as [|x F'] eqn:EF.
    + exfalso. apply existsb_exists in Ex. destruct Ex as (r' & Hin & Heq).
      apply value_eqb_eq in Heq, Ev.
      assert (In r' F) as Hr'.
      { apply filter_In. split; [exact Hin|]. apply value_eqb_eq. congruence. }
      rewrite EF in Hr'. destruct Hr'.
    + rewrite last_cons_cons. exact IH.
  - cbn [List.filter]. destruct (value_eqb (cell_at i r) v) eqn:Ev; [|exact IH].
    fold F. rewrite IH. destruct F as [|x F'] eqn:EF; [reflexivity|].
    exfalso. destruct (HF x F' eq_refl) as [Hin Hx].
    apply value_eqb_eq in Hx, Ev.
    assert (existsb (fun r' => value_eqb (cell_at i r) (cell_at i r')) rs = true) as C.
    { apply existsb_exists. exists x. split; [exact Hin|].
      apply value_eqb_eq. congruence. }
    congruence.
Qed.

Lemma drop_duplicates_id df i d :
  get_loc "id" (columns df) = Some (i, d) ->
  drop_duplicates df [duplicate_subset settings] (duplicate_keep settings)
  = Ok (mkDataFrame (columns df) (kept_rows i (rows df))).
Proof.
  intros H. unfold drop_duplicates. destruct (df_empty df) eqn:E.
  - destruct df as [cols rs]. unfold df_empty in E. cbn [rows columns] in *.
    destruct rs as [|r rs]; [reflexivity|].
    destruct cols; [discriminate H | discriminate E].
  - simpl. rewrite H. reflexivity.
Qed.

(** ** Cleaning the category column *)

Lemma set_cells_map i (f : value -> value) rs :
  set_cells i rs (map f (map (cell_at i) rs))
  = map (fun r => (fst r, <[i := f (cell_at i r)]> (snd r))) rs.
Proof.
  induction rs as [|[l cells] rs IH]; simpl; [reflexivity|].
  rewrite IH. reflexivity.
Qed.

Lemma clean_columns_categories df :
  exists cols',
    clean_columns (columns_to_clean settings) df
    = Ok (mkDataFrame cols' (map (clean_row df) (rows df))) /\
    forall name, loc_of name cols' = loc_of name (columns df).
Proof.
  cbn [columns_to_clean settings clean_columns].
  unfold has_column, getitem, setitem, clean_row.
  destruct (get_loc "categories" (columns df)) as [[j d]|] eqn:E.
  - cbn [bind]. eexists. split.
    + unfold series_apply. cbn [s_values]. rewrite set_cells_map. reflexivity.
    + intros name. apply loc_of_set_dtype.
  - exists (columns df). split; [|reflexivity].
    rewrite map_id. destruct df; reflexivity.
Qed.

Lemma clean_row_label df r : fst (clean_row df r) = fst r.
Proof.
  unfold clean_row. destruct (get_loc "categories" (columns df)) as [[j d]|];
    reflexivity.
Qed.

Lemma cell_at_insert_ne i j x l cells :
  i <> j -> cell_at i (l, <[j := x]> cells) = cell_at i (l, cells).
Proof.
  intros H. unfold cell_at. simpl. rewrite !nth_lookup.
  rewrite list_lookup_insert_ne by congruence. reflexivity.
Qed.

Lemma cell_at_insert_eq j (f : value -> value) l cells :
  f VNaN = VNaN ->
  cell_at j (l, <[j := f (cell_at j (l, cells))]> cells) = f (cell_at j (l, cells)).
Proof.
  intros Hf. unfold cell_at. simpl. rewrite !nth_lookup.
  destruct (decide (j < length cells)) as [Hlt|Hge].
  - rewrite list_lookup_insert_eq by exact Hlt. reflexivity.
  - rewrite list_insert_ge by lia.
    rewrite (lookup_ge_None_2 cells j) by lia. simpl. symmetry. exact Hf.
Qed.

Lemma clean_row_other df name r :
  name <> "categories" -> cell df name (clean_row df r) = cell df name r.
Proof.
  intros Hne. unfold cell, clean_row.
  destruct (get_loc name (columns df)) as [[i d]|] eqn:Ei; [|reflexivity].
  destruct (get_loc "categories" (columns df)) as [[j d']|] eqn:Ej; [|reflexivity].
  destruct r as [l cells]. apply cell_at_insert_ne.
  eapply get_loc_distinct; eassumption.
Qed.

Lemma clean_row_categories df r :
  cell df "categories" (clean_row df r) = clean_value (cell df "categories" r).
Proof.
  unfold cell, clean_row.
  destruct (get_loc "categories" (columns df)) as [[j d]|]; [|reflexivity].
  destruct r as [l cells]. apply cell_at_insert_eq. reflexivity.
Qed.

(** ** The loader as a whole *)

(** When the file is read and has an ['id'] column, the loader prints
    nothing and returns the kept rows, cleaned, under the columns it
    found. *)
Lemma load_and_clean_data_ok read_csv path raw :
  read_csv path = Ok raw ->
  has_column raw "id" = true ->
  exists i cols',
    loc_of "id" (columns raw) = Some i /\
    load_and_clean_data read_csv path
    = ([], Some (mkDataFrame cols' (map (clean_row raw) (kept_rows i (rows raw))))) /\
    forall name, loc_of name cols' = loc_of name (columns raw).
Proof.
  intros Hread Hid.
  destruct (has_column_loc _ _ Hid) as (i & d & Hloc).
  destruct (clean_columns_categories
              (mkDataFrame (columns raw) (kept_rows i (rows raw))))
    as (cols' & Hclean & Hcols).
  exists i, cols'. split; [unfold loc_of; rewrite Hloc; reflexivity|].
  split; [|exact Hcols].
  unfold load_and_clean_data, load_and_clean_data_try.
  rewrite Hread. cbn [bind].
  rewrite (drop_duplicates_id raw i d Hloc). cbn [bind].
  rewrite Hclean. reflexivity.
Qed.

Lemma cell_loc_of df name i r :
  loc_of name (columns df) = Some i -> cell df name r = cell_at i r.
Proof.
  unfold loc_of, cell.
  destruct (get_loc name (columns df)) as [[a ?]|]; simpl; [|discriminate].
  intros [= ->]. reflexivity.
Qed.

Lemma sublist_StronglySorted {A} (R : A -> A -> Prop) (l1 l2 : list A) :
  sublist l1 l2 -> StronglySorted R l2 -> StronglySorted R l1.
Proof.
  induction 1 as [|x l1 l2 Hsub IH|x l1 l2 Hsub IH]; intros Hs.
  - constructor.
  - apply StronglySorted_inv in Hs. destruct Hs as [Hs Hx]. constructor.
    + apply IH, Hs.
    + rewrite Forall_forall in *. intros y Hy. apply Hx.
      eapply elem_of_sublist; eassumption.
  - apply StronglySorted_inv in Hs. destruct Hs as [Hs _]. apply IH, Hs.
Qed.

(** C2, as amended: for every identifier that occurs in the file, the
    cleaned frame has exactly one record with that identifier; it is the
    last row of the file with that identifier (same label, same cells)
    except that its category cell has been cleaned.  Right after
    [drop_duplicates] the record is that row, cell for cell. *)
Theorem load_keeps_last_duplicate read_csv path raw v r_last :
  read_csv path = Ok raw ->
  has_column raw "id" = true ->
  last_row_with raw "id" v = Some r_last ->
  exists deduped cleaned,
    drop_duplicates raw ["id"] keep_last = Ok deduped /\
    List.filter (fun r => value_eqb (cell deduped "id" r) v) (rows deduped)
    = [r_last] /\
    load_and_clean_data read_csv path = ([], Some cleaned) /\
    List.filter (fun r => value_eqb (cell cleaned "id" r) v) (rows cleaned)
    = [clean_row raw r_last] /\
    fst (clean_row raw r_last) = fst r_last /\
    (forall name, name <> "categories" ->
                  cell cleaned name (clean_row raw r_last) = cell raw name r_last) /\
    cell cleaned "categories" (clean_row raw r_last)
    = clean_value (cell raw "categories" r_last).
Proof.
  intros Hread Hid Hlast.
  destruct (load_and_clean_data_ok _ _ _ Hread Hid) as (i & cols' & Hi & Hload & Hcols).
  destruct (has_column_loc _ _ Hid) as (i' & d & Hloc).
  assert (i' = i) as -> by (unfold loc_of in Hi; rewrite Hloc in Hi; simpl in Hi; congruence).
  set (cleaned := mkDataFrame cols' (map (clean_row raw) (kept_rows i (rows raw)))) in *.
  assert (Hcell : forall name r, cell cleaned name r = cell raw name r).
  { intros name r. apply cell_same_loc. apply Hcols. }
  assert (Hkept : List.filter (fun r => value_eqb (cell raw "id" r) v)
                    (kept_rows i (rows raw)) = [r_last]).
  { rewrite (filter_ext_in_rows _ (fun r => value_eqb (cell_at i r) v)).
    - rewrite kept_rows_filter.
      unfold last_row_with in Hlast.
      rewrite (filter_ext_in_rows _ (fun r => value_eqb (cell_at i r) v)) in Hlast.
      + rewrite Hlast. reflexivity.
      + intros r _. rewrite (cell_loc_of _ _ _ _ Hi). reflexivity.
    - intros r _. rewrite (cell_loc_of _ _ _ _ Hi). reflexivity. }
  exists (mkDataFrame (columns raw) (kept_rows i (rows raw))), cleaned.
  split; [exact (drop_duplicates_id raw i d Hloc)|].
  split; [exact Hkept|].
  split; [exact Hload|].
  split; [|split; [apply clean_row_label|split]].
  - unfold cleaned at 2. cbn [rows]. rewrite filter_map_swap.
    rewrite (filter_ext_in_rows _ (fun r => value_eqb (cell raw "id" r) v)).
    + rewrite Hkept. reflexivity.
    + intros r _. rewrite Hcell, clean_row_other by discriminate. reflexivity.
  - intros name Hne. rewrite Hcell. apply clean_row_other, Hne.
  - rewrite Hcell. apply clean_row_categories.
Qed.

Lemma load_keeps_last_duplicate_witness :
  exists deduped cleaned,
    drop_duplicates Sample.raw ["id"] keep_last = Ok deduped /\
    List.filter (fun r => value_eqb (cell deduped "id" r) (VStr "1")) (rows deduped)
    = [Sample.record 2 "1" "A2" "LA" "CA" " Pizza "] /\
    load_and_clean_data Sample.read_csv "data.csv" = ([], Some cleaned) /\
    List.filter (fun r => value_eqb (cell cleaned "id" r) (VStr "1")) (rows cleaned)
    = [Sample.record 2 "1" "A2" "LA" "CA" "pizza"].
Proof.
  destruct (load_keeps_last_duplicate Sample.read_csv "data.csv" Sample.raw
              (VStr "1") (Sample.record 2 "1" "A2" "LA" "CA" " Pizza ")
              eq_refl eq_refl eq_refl)
    as (deduped & cleaned & H1 & H2 & H3 & H4 & _).
  exists deduped, cleaned. repeat split; assumption.
Defined.

(** C2, as stated, fails on the rows of the example: the record that the
    cleaned frame holds for identifier 1 is not the last row with that
    identifier as the file has it, since its category has been trimmed and
    lowered. *)
Lemma load_last_duplicate_not_verbatim :
  Sample.read_csv "data.csv" = Ok Sample.raw /\
  last_row_with Sample.raw "id" (VStr "1")
  = Some (Sample.record 2 "1" "A2" "LA" "CA" " Pizza ") /\
  ~ (exists cleaned,
        load_and_clean_data Sample.read_csv "data.csv" = ([], Some cleaned) /\
        List.filter (fun r => value_eqb (cell cleaned "id" r) (VStr "1")) (rows cleaned)
        = [Sample.record 2 "1" "A2" "LA" "CA" " Pizza "]).
Proof.
  split; [reflexivity|]. split; [reflexivity|].
  intros (cleaned & Hload & Hrec).
  assert (E : load_and_clean_data Sample.read_csv "data.csv"
              = ([], Some Sample.cleaned)) by (vm_compute; reflexivity).
  rewrite E in Hload. injection Hload as <-.
  vm_compute in Hrec. discriminate.
Qed.

(** C10: the loader keeps the rows in file order: the cleaned rows are the
    cleaned images, in order, of a subsequence of the rows read; each keeps
    its label, so the labels of the cleaned frame increase when those of
    the file do. *)
Theorem load_preserves_order read_csv path raw :
  read_csv path = Ok raw ->
  has_column raw "id" = true ->
  exists cleaned kept,
    load_and_clean_data read_csv path = ([], Some cleaned) /\
    sublist kept (rows raw) /\
    rows cleaned = map (clean_row raw) kept /\
    map fst (rows cleaned) = map fst kept /\
    (StronglySorted lt (map fst (rows raw)) ->
     StronglySorted lt (map fst (rows cleaned))).
Proof.
  intros Hread Hid.
  destruct (load_and_clean_data_ok _ _ _ Hread Hid) as (i & cols' & Hi & Hload & Hcols).
  exists (mkDataFrame cols' (map (clean_row raw) (kept_rows i (rows raw)))),
         (kept_rows i (rows raw)).
  assert (Hlab : map fst (map (clean_row raw) (kept_rows i (rows raw)))
                 = map fst (kept_rows i (rows raw))).
  { rewrite map_map. apply map_ext. intros r. apply clean_row_label. }
  split; [exact Hload|]. split; [apply kept_rows_sublist|].
  split; [reflexivity|]. split; [exact Hlab|].
  cbn [rows]. rewrite Hlab. apply sublist_StronglySorted.
  apply (fmap_sublist fst). apply kept_rows_sublist.
Qed.

Lemma load_preserves_order_witness :
  exists cleaned,
    load_and_clean_data Sample.read_csv "data.csv" = ([], Some cleaned) /\
    StronglySorted lt (map fst (rows cleaned)).
Proof.
  destruct (load_preserves_order Sample.read_csv "data.csv" Sample.raw
              eq_refl eq_refl)
    as (cleaned & kept & H1 & _ & _ & _ & H5).
  exists cleaned. split; [exact H1|]. apply H5.
  repeat constructor.
Defined.

(** C6: in the frame the loader returns, a category cell that is a text has
    no whitespace at either end and no upper-case letter (trimming or
    lowering it again changes nothing); every record comes from a row of
    the file whose category cell, if it was not a text, is the same cell. *)
Theorem load_cleans_categories read_csv path raw :
  read_csv path = Ok raw ->
  has_column raw "id" = true ->
  exists cleaned,
    load_and_clean_data read_csv path = ([], Some cleaned) /\
    forall r, In r (rows cleaned) ->
      (forall s, cell cleaned "categories" r = VStr s ->
                 Str.leading_space s = false /\ Str.trailing_space s = false /\
                 Str.no_upper s = true /\ Str.strip s = s /\ Str.lower s = s) /\
      (exists r0, In r0 (rows raw) /\ fst r0 = fst r /\
                  cell cleaned "categories" r
                  = clean_value (cell raw "categories" r0) /\
                  is_str (cell cleaned "categories" r)
                  = is_str (cell raw "categories" r0) /\
                  (is_str (cell raw "categories" r0) = false ->
                   cell cleaned "categories" r = cell raw "categories" r0)).
Proof.
  intros Hread Hid.
  destruct (load_and_clean_data_ok _ _ _ Hread Hid) as (i & cols' & Hi & Hload & Hcols).
  set (cleaned := mkDataFrame cols' (map (clean_row raw) (kept_rows i (rows raw)))) in *.
  exists cleaned. split; [exact Hload|].
  intros r Hr. unfold cleaned in Hr. cbn [rows] in Hr.
  apply in_map_iff in Hr. destruct Hr as (r0 & <- & Hr0).
  assert (Hc : cell cleaned "categories" (clean_row raw r0)
               = clean_value (cell raw "categories" r0)).
  { rewrite <- clean_row_categories. apply cell_same_loc, Hcols. }
  split.
  - intros s Hs. rewrite Hc in Hs.
    destruct (cell raw "categories" r0) as [t| |]; simpl in Hs; try discriminate.
    injection Hs as <-. apply StrFacts.strip_lower_clean.
  - exists r0. split.
    + apply list_elem_of_In. eapply elem_of_sublist.
      * apply list_elem_of_In. exact Hr0.
      * apply kept_rows_sublist.
    + split; [symmetry; apply clean_row_label|]. split; [exact Hc|].
      rewrite Hc. destruct (cell raw "categories" r0); simpl; split; congruence.
Qed.

Lemma load_cleans_categories_witness :
  exists cleaned,
    load_and_clean_data Sample.read_csv "data.csv" = ([], Some cleaned) /\
    map (cell cleaned "categories") (rows cleaned) = [VStr "burgers"; VStr "pizza"].
Proof.
  destruct (load_cleans_categories Sample.read_csv "data.csv" Sample.raw
              eq_refl eq_refl) as (cleaned & H & _).
  exists cleaned. split; [exact H|].
  vm_compute in H. injection H as <-. reflexivity.
Defined.

(** C8: whenever the body of the [try] raises -- the file cannot be read,
    or a frame that is not empty has no ['id'] column -- the loader prints
    one line that carries the message of the exception and returns [None]
    without raising.  The caller is not protected by this: the first use it
    makes of the value returned, at line 71, raises [TypeError]. *)
Theorem load_fails_soft read_csv path :
  (forall e, read_csv path = Raise e ->
             load_and_clean_data read_csv path
             = ([("An error occurred: " ++ exception_str e)%string], None)) /\
  (forall raw, read_csv path = Ok raw -> df_empty raw = false ->
               has_column raw "id" = false ->
               exists msg,
                 load_and_clean_data read_csv path
                 = ([("An error occurred: " ++ exception_str (KeyError msg))%string],
                    None)) /\
  (forall e, load_and_clean_data_try read_csv path = Raise e ->
             load_and_clean_data read_csv path
             = ([("An error occurred: " ++ exception_str e)%string], None) /\
             province_options (snd (load_and_clean_data read_csv path))
             = Raise (TypeError "'NoneType' object is not subscriptable")) /\
  (snd (load_and_clean_data read_csv path) = None
   <-> exists e, load_and_clean_data_try read_csv path = Raise e).
Proof.
  split; [|split; [|split]].
  - intros e H. unfold load_and_clean_data, load_and_clean_data_try.
    rewrite H. reflexivity.
  - intros raw H He Hid. unfold load_and_clean_data, load_and_clean_data_try.
    rewrite H. cbn [bind]. unfold drop_duplicates, has_column in *. rewrite He.
    cbn [settings duplicate_subset get_locs].
    destruct (get_loc "id" (columns raw)) as [[i d]|]; [discriminate|].
    eexists. reflexivity.
  - intros e H. unfold load_and_clean_data. rewrite H. split; reflexivity.
  - unfold load_and_clean_data.
    destruct (load_and_clean_data_try read_csv path) as [df|e]; simpl.
    + split; [discriminate | intros [e He]; discriminate].
    + split; [intros _; exists e; reflexivity | reflexivity].
Qed.

Lemma load_fails_soft_witness :
  load_and_clean_data Sample.read_csv "missing.csv"
  = (["An error occurred: [Errno 2] No such file or directory"], None) /\
  province_options (snd (load_and_clean_data Sample.read_csv "missing.csv"))
  = Raise (TypeError "'NoneType' object is not subscriptable").
Proof.
  exact (proj1 (proj2 (proj2 (load_fails_soft Sample.read_csv "missing.csv")))
           _ eq_refl).
Defined.

(** ** The order of the group keys *)

Lemma string_leb_refl s : String.leb s s = true.
Proof. destruct (String.leb_total s s); assumption. Qed.

Lemma string_leb_trans s1 s2 s3 :
  String.leb s1 s2 = true -> String.leb s2 s3 = true -> String.leb s1 s3 = true.
Proof.
  unfold String.leb. revert s2 s3.
  induction s1 as [|x s1 IH]; intros [|y s2] [|z s3]; simpl; try congruence.
  unfold Ascii.compare.
  destruct (N.compare_spec (N_of_ascii x) (N_of_ascii y)) as [Exy|Lxy|Gxy];
    destruct (N.compare_spec (N_of_ascii y) (N_of_ascii z)) as [Eyz|Lyz|Gyz];
    try congruence.
  - rewrite Exy, Eyz, N.compare_refl. apply IH.
  - intros _ _. rewrite Exy. rewrite (proj2 (N.compare_lt_iff _ _) Lyz). reflexivity.
  - intros _ _. rewrite <- Eyz. rewrite (proj2 (N.compare_lt_iff _ _) Lxy). reflexivity.
  - intros _ _.
    rewrite (proj2 (N.compare_lt_iff _ _) (N.lt_trans _ _ _ Lxy Lyz)). reflexivity.
Qed.

#[global] Instance value_le_total : Total value_le.
Proof.
  intros [s|x|] [t|y|]; unfold value_le; simpl; auto.
  - apply String.leb_total.
  - destruct (Z.leb_spec x y), (Z.leb_spec y x); auto; lia.
Qed.

#[global] Instance value_le_trans : Transitive value_le.
Proof.
  intros [s|x|] [t|y|] [u|z|]; unfold value_le; simpl; try congruence.
  - apply string_leb_trans.
  - rewrite !Z.leb_le. lia.
Qed.

#[global] Instance value_le_antisym : AntiSymm eq value_le.
Proof.
  intros [s|x|] [t|y|]; unfold value_le; simpl; try congruence.
  - intros H1 H2. f_equal. apply String.leb_antisym; assumption.
  - rewrite !Z.leb_le. intros H1 H2. f_equal. lia.
Qed.

(** ** Distinct values and their counts *)

Lemma unique_In v vs : In v (unique vs) <-> In v vs.
Proof.
  induction vs as [|x vs IH]; simpl; [reflexivity|].
  rewrite filter_In, IH, negb_true_iff. split.
  - intros [H | [H _]]; auto.
  - intros [H | H]; [auto|].
    destruct (value_eqb x v) eqn:E.
    + apply value_eqb_eq in E. auto.
    + auto.
Qed.

Lemma unique_NoDup vs : NoDup (unique vs).
Proof.
  induction vs as [|x vs IH]; simpl; constructor.
  - rewrite list_elem_of_In, filter_In, value_eqb_refl. intros [_ H]. discriminate.
  - apply NoDup_ListNoDup, List.NoDup_filter, NoDup_ListNoDup, IH.
Qed.




Lemma filter_Permutation {A} (p : A -> bool) (l l' : list A) :
  Permutation l l' -> Permutation (List.filter p l) (List.filter p l').
Proof.
  induction 1 as [|x l l' H IH|x y l|l l' l'' H1 IH1 H2 IH2]; simpl.
  - constructor.
  - destruct (p x); [constructor|]; assumption.
  - destruct (p x), (p y); solve [apply perm_swap | apply Permutation_refl].
  - etransitivity; eassumption.
Qed.

Lemma count_value_Permutation k vs vs' :
  Permutation vs vs' -> count_value k vs = count_value k vs'.
Proof.
  intros H. unfold count_value.
  apply Permutation_length, filter_Permutation, H.
Qed.

(** The sorted list of distinct values depends on the values only, not on
    their order. *)
Lemma sorted_unique_Permutation vs vs' :
  Permutation vs vs' ->
  merge_sort value_le (unique vs) = merge_sort value_le (unique vs').
Proof.
  intros H. apply (StronglySorted_unique value_le).
  - apply StronglySorted_merge_sort; apply _.
  - apply StronglySorted_merge_sort; apply _.
  - rewrite !merge_sort_Permutation.
    apply NoDup_Permutation; try apply unique_NoDup.
    intros x. rewrite !list_elem_of_In, !unique_In.
    split; apply Permutation_in; [exact H | symmetry; exact H].
Qed.

(** ** Tables of counts *)

Lemma map_snd_combine_seq {A} (l : list A) a :
  map snd (combine (seq a (length l)) l) = l.
Proof.
  revert a. induction l as [|x l IH]; intros a; simpl; [reflexivity|].
  rewrite IH. reflexivity.
Qed.

Lemma counts_frame_cells kn d cn counts :
  map snd (rows (counts_frame kn d cn counts))
  = map (fun c => [fst c; VNum (Z.of_nat (snd c))]) counts.
Proof.
  unfold counts_frame. cbn [rows]. rewrite map_map. cbn [snd].
  rewrite <- (map_map snd (fun c => [fst c; VNum (Z.of_nat (snd c))])).
  rewrite map_snd_combine_seq. reflexivity.
Qed.



Lemma count_of_reset_index i rs :
  map (count_of i) (reset_index rs) = map (count_of i) rs.
Proof.
  transitivity (map (count_of i) (map snd (combine (seq 0 (length rs)) rs))).
  - unfold reset_index. rewrite !map_map. reflexivity.
  - rewrite map_snd_combine_seq. reflexivity.
Qed.


Lemma count_value_filter k (p : value -> bool) vs :
  p k = true -> count_value k (List.filter p vs) = count_value k vs.
Proof.
  intros Hk. unfold count_value. induction vs as [|v vs IH]; simpl; [reflexivity|].
  destruct (p v) eqn:Ep; simpl.
  - destruct (value_eqb k v); simpl; rewrite IH; reflexivity.
  - destruct (value_eqb k v) eqn:E; [|exact IH].
    apply value_eqb_eq in E. congruence.
Qed.

Lemma Sorted_firstn {A} (R : A -> A -> Prop) n (l : list A) :
  Sorted R l -> Sorted R (firstn n l).
Proof.
  intros H. revert n. induction H as [|x l Hl IH Hx]; intros [|n]; simpl;
    try constructor.
  - apply IH.
  - destruct Hx as [|y l' Hxy]; destruct n; simpl; constructor. exact Hxy.
Qed.

Lemma In_counts_frame kn d cn counts r :
  In r (rows (counts_frame kn d cn counts)) ->
  exists c, In c counts /\ snd r = [fst c; VNum (Z.of_nat (snd c))].
Proof.
  intros H.
  assert (In (snd r) (map snd (rows (counts_frame kn d cn counts)))) as H'
      by (apply in_map; exact H).
  rewrite counts_frame_cells in H'. apply in_map_iff in H'.
  destruct H' as (c & E & Hc). exists c. split; [exact Hc | symmetry; exact E].
Qed.

Lemma firstn_In {A} n (l : list A) x : In x (firstn n l) -> In x l.
Proof.
  revert n. induction l as [|a l IH]; intros [|n]; simpl; try tauto.
  intros [H | H]; [left; exact H | right; eapply IH; exact H].
Qed.

Lemma sorted_desc_ext (key key' : Row -> Z) rs :
  (forall r, key' r = key r) -> sorted_desc key rs -> sorted_desc key' rs.
Proof.
  intros E. unfold sorted_desc. induction 1 as [|r rs Hs IH Hr]; constructor.
  - exact IH.
  - destruct Hr; constructor. rewrite !E. assumption.
Qed.

Section AggregatorFacts.

Variable argsort_desc : (Row -> Z) -> list Row -> list Row.
Hypothesis argsort_desc_perm : forall key rs, Permutation (argsort_desc key rs) rs.
Hypothesis argsort_desc_sorted : forall key rs, sorted_desc key (argsort_desc key rs).



Lemma groupby_size_Permutation df df' name :
  columns df' = columns df -> Permutation (rows df) (rows df') ->
  groupby_size df' name = groupby_size df name.
Proof.
  intros Hcols Hperm. unfold groupby_size, getitem. rewrite Hcols.
  destruct (get_loc name (columns df)) as [[i d]|]; [|reflexivity].
  cbn [bind s_values s_dtype].
  assert (P : Permutation
                (List.filter (fun x => negb (is_nan x)) (map (cell_at i) (rows df')))
                (List.filter (fun x => negb (is_nan x)) (map (cell_at i) (rows df)))).
  { apply filter_Permutation, Permutation_map. symmetry. exact Hperm. }
  rewrite (sorted_unique_Permutation _ _ P).
  do 2 f_equal. apply map_ext. intros k. f_equal.
  apply count_value_Permutation, P.
Qed.

(** The result of [get_top_10_restaurants] depends on the records only,
    not on the order in which the frame has them. *)
Lemma get_top_10_restaurants_Permutation df df' :
  columns df' = columns df -> Permutation (rows df) (rows df') ->
  get_top_10_restaurants argsort_desc df'
  = get_top_10_restaurants argsort_desc df.
Proof.
  intros Hcols Hperm. unfold get_top_10_restaurants.
  rewrite (groupby_size_Permutation df df' "name" Hcols Hperm). reflexivity.
Qed.

(** C3, as amended: [get_top_10_restaurants] returns at most 10 rows, one
    name and its number of records each, in descending order of the count;
    the result is the same whenever it is computed from the same records,
    in whatever order the frame lists them. *)
Theorem get_top_10_restaurants_spec df :
  has_column df "name" = true ->
  exists top,
    get_top_10_restaurants argsort_desc df = Ok top /\
    length (rows top) <= 10 /\
    sorted_desc (fun r => match cell top "count" r with VNum z => z | _ => 0%Z end)
                (rows top) /\
    (forall r, In r (rows top) ->
               cell top "name" r <> VNaN /\
               cell top "count" r
               = VNum (Z.of_nat (count_value (cell top "name" r)
                                             (column_values df "name")))) /\
    (forall df', columns df' = columns df -> Permutation (rows df) (rows df') ->
                 get_top_10_restaurants argsort_desc df' = Ok top).
Proof.
  intros H. destruct (has_column_loc _ _ H) as (i & d & Hloc).
  destruct (getitem_Some _ _ _ _ Hloc) as [Hget Hcell].
  assert (E : exists top, get_top_10_restaurants argsort_desc df = Ok top /\
                columns top = [("name", d); ("count", numeric)] /\
                exists table,
                  rows top = firstn 10 (argsort_desc (count_of 1) table) /\
                  forall r, In r table ->
                    exists k, In k (List.filter (fun x => negb (is_nan x))
                                                (column_values df "name")) /\
                      snd r = [k; VNum (Z.of_nat (count_value k (column_values df "name")))]).
  { unfold get_top_10_restaurants, groupby_size. rewrite Hget. cbn [bind s_values s_dtype].
    eexists. split; [reflexivity|]. split; [reflexivity|].
    eexists. split; [reflexivity|].
    intros r Hr. apply In_counts_frame in Hr. destruct Hr as (c & Hc & Er).
    apply in_map_iff in Hc. destruct Hc as (k & <- & Hk).
    assert (Hk' : In k (List.filter (fun x => negb (is_nan x)) (map (cell_at i) (rows df)))).
    { apply unique_In. eapply Permutation_in; [|exact Hk].
      apply merge_sort_Permutation. }
    assert (Hvals : map (cell_at i) (rows df) = column_values df "name").
    { unfold column_values. apply map_ext. intros r'. symmetry. apply Hcell. }
    rewrite Hvals in Hk'. exists k. split; [exact Hk'|].
    rewrite Er. cbn [fst snd]. rewrite Hvals. do 4 f_equal.
    apply count_value_filter. apply filter_In in Hk'. apply Hk'. }
  destruct E as (top & Htop & Hcols & table & Hrows & Htable).
  exists top. split; [exact Htop|].
  assert (Hname : forall r, cell top "name" r = cell_at 0 r).
  { intros r. unfold cell. rewrite Hcols. reflexivity. }
  assert (Hcount : forall r, cell top "count" r = cell_at 1 r).
  { intros r. unfold cell. rewrite Hcols. reflexivity. }
  split; [|split; [|split]].
  - rewrite Hrows. apply firstn_le_length.
  - rewrite Hrows. apply Sorted_firstn.
    apply (sorted_desc_ext (count_of 1)); [|apply argsort_desc_sorted].
    intros r. unfold count_of. rewrite Hcount. reflexivity.
  - intros r Hr. rewrite Hrows in Hr. apply firstn_In in Hr.
    apply (Permutation_in _ (argsort_desc_perm _ _)) in Hr.
    destruct (Htable r Hr) as (k & Hk & Er).
    rewrite Hname, Hcount. unfold cell_at. rewrite Er. cbn [nth].
    split; [|reflexivity].
    apply filter_In in Hk. destruct Hk as [_ Hk]. destruct k; simpl in Hk; congruence.
  - intros df' Hc Hp. rewrite <- Htop.
    apply get_top_10_restaurants_Permutation; assumption.
Qed.

End AggregatorFacts.

(** ** The order-keeping sort *)

Lemma insert_desc_perm key x rs : Permutation (insert_desc key x rs) (x :: rs).
Proof.
  induction rs as [|y rs IH]; simpl; [apply Permutation_refl|].
  destruct (key y <=? key x)%Z; [apply Permutation_refl|].
  etransitivity; [apply perm_skip, IH | apply perm_swap].
Qed.

Lemma stable_sort_desc_perm key rs : Permutation (stable_sort_desc key rs) rs.
Proof.
  induction rs as [|r rs IH]; simpl; [constructor|].
  etransitivity; [apply insert_desc_perm | apply perm_skip, IH].
Qed.

Lemma insert_desc_sorted key x rs :
  sorted_desc key rs -> sorted_desc key (insert_desc key x rs).
Proof.
  unfold sorted_desc. induction 1 as [|y rs Hs IH Hy]; simpl.
  - repeat constructor.
  - destruct (Z.leb_spec (key y) (key x)) as [Hle|Hgt].
    + constructor; [constructor; assumption | constructor; exact Hle].
    + constructor; [exact IH|].
      destruct Hy as [|z rs' Hz]; simpl.
      * constructor. lia.
      * destruct (key z <=? key x)%Z; constructor; [lia | exact Hz].
Qed.

Lemma stable_sort_desc_sorted key rs : sorted_desc key (stable_sort_desc key rs).
Proof.
  induction rs as [|r rs IH]; simpl; [constructor|].
  apply insert_desc_sorted, IH.
Qed.

(** ** The aggregations on the sample data *)


(** [value_counts] leaves out a record whose province is missing: on a
    frame taken as it was loaded, before any filter, the counts add up to
    the number of records that have a province. *)
Lemma province_counts_skip_missing :
  province_counts stable_sort_desc Sample.missing_province
  = Ok (mkDataFrame [("province", object); ("count", numeric)]
          [(0, [VStr "MA"; VNum 1])]) /\
  length (rows Sample.missing_province) = 2.
Proof. split; reflexivity. Qed.

Lemma get_top_10_restaurants_spec_witness :
  exists top,
    get_top_10_restaurants stable_sort_desc Sample.two_provinces = Ok top /\
    length (rows top) <= 10 /\
    get_top_10_restaurants stable_sort_desc
      (mkDataFrame Sample.cols (rev (rows Sample.two_provinces))) = Ok top.
Proof.
  destruct (get_top_10_restaurants_spec stable_sort_desc stable_sort_desc_perm
              stable_sort_desc_sorted Sample.two_provinces eq_refl)
    as (top & H1 & H2 & _ & _ & H5).
  exists top. split; [exact H1|]. split; [exact H2|].
  apply H5; [reflexivity|]. apply Permutation_rev.
Defined.

(** C3, as stated, fails on two restaurants with one location each: B is
    met first, and A comes first in the result. *)
Lemma top_10_ties_not_first_encountered :
  get_top_10_restaurants stable_sort_desc Sample.b_then_a
  = Ok (mkDataFrame [("name", object); ("count", numeric)]
          [(0, [VStr "A"; VNum 1]); (1, [VStr "B"; VNum 1])]) /\
  ~ (exists top,
        get_top_10_restaurants stable_sort_desc Sample.b_then_a = Ok top /\
        length (rows top) <= 10 /\
        sorted_desc (fun r => match cell top "count" r with VNum z => z | _ => 0%Z end)
                    (rows top) /\
        ties_by_first_encounter Sample.b_then_a top /\
        get_top_10_restaurants stable_sort_desc Sample.b_then_a = Ok top).
Proof.
  split; [reflexivity|].
  intros (top & H & _ & _ & Hties & _).
  assert (E : get_top_10_restaurants stable_sort_desc Sample.b_then_a
              = Ok (mkDataFrame [("name", object); ("count", numeric)]
                      [(0, [VStr "A"; VNum 1]); (1, [VStr "B"; VNum 1])]))
    by reflexivity.
  rewrite E in H. injection H as <-.
  specialize (Hties 0 1 (0, [VStr "A"; VNum 1%Z]) (1, [VStr "B"; VNum 1%Z])).
  vm_compute in Hties.
  specialize (Hties (le_n 1) eq_refl eq_refl eq_refl).
  inversion Hties.
Qed.

(** Whatever sort is used, the order of the names with equal counts cannot
    be the order of first encounter: the two sample frames hold the same
    records in opposite orders and get the same result. *)
Lemma ties_not_first_encountered_any_sort
    (argsort_desc : (Row -> Z) -> list Row -> list Row) :
  (forall key rs, Permutation (argsort_desc key rs) rs) ->
  ~ ((exists top,
         get_top_10_restaurants argsort_desc Sample.b_then_a = Ok top /\
         ties_by_first_encounter Sample.b_then_a top) /\
     (exists top,
         get_top_10_restaurants argsort_desc Sample.a_then_b = Ok top /\
         ties_by_first_encounter Sample.a_then_b top)).
Proof.
  intros Hperm [(top & H & Hties) (top' & H' & Hties')].
  assert (Hsame : get_top_10_restaurants argsort_desc Sample.a_then_b
                  = get_top_10_restaurants argsort_desc Sample.b_then_a).
  { apply get_top_10_restaurants_Permutation; [reflexivity | apply perm_swap]. }
  rewrite Hsame, H in H'. injection H' as <-.
  assert (E : get_top_10_restaurants argsort_desc Sample.b_then_a
              = Ok (mkDataFrame [("name", object); ("count", numeric)]
                      (firstn 10 (argsort_desc (count_of 1)
                                    [(0, [VStr "A"; VNum 1]); (1, [VStr "B"; VNum 1])]))))
    by reflexivity.
  rewrite E in H. injection H as <-.
  pose proof (Hperm (count_of 1) [(0, [VStr "A"; VNum 1%Z]); (1, [VStr "B"; VNum 1%Z])])
    as P.
  apply Permutation_sym, Permutation_length_2_inv in P.
  destruct P as [P | P].
  - specialize (Hties 0 1 (0, [VStr "A"; VNum 1%Z]) (1, [VStr "B"; VNum 1%Z])).
    cbn [rows] in Hties. rewrite P in Hties. vm_compute in Hties.
    specialize (Hties (le_n 1) eq_refl eq_refl eq_refl). inversion Hties.
  - specialize (Hties' 0 1 (1, [VStr "B"; VNum 1%Z]) (0, [VStr "A"; VNum 1%Z])).
    cbn [rows] in Hties'. rewrite P in Hties'. vm_compute in Hties'.
    specialize (Hties' (le_n 1) eq_refl eq_refl eq_refl). inversion Hties'.
Qed.

(** ** After a failed load *)

(** The value the loader returns when the [try] raises is [None], and the
    first use the program makes of it, at line 71, raises [TypeError]. *)
Lemma province_options_after_failed_load read_csv path e :
  load_and_clean_data_try read_csv path = Raise e ->
  province_options (snd (load_and_clean_data read_csv path))
  = Raise (TypeError "'NoneType' object is not subscriptable").
Proof.
  intros H. unfold load_and_clean_data. rewrite H. reflexivity.
Qed.

(** * Further properties of the loader *)

Lemma existsb_same_key i r rs :
  existsb (fun r' => value_eqb (cell_at i r) (cell_at i r')) rs = true
  <-> In (cell_at i r) (map (cell_at i) rs).
Proof.
  rewrite existsb_exists, in_map_iff. split.
  - intros (r' & Hin & E). apply value_eqb_eq in E. exists r'. split; congruence.
  - intros (r' & E & Hin). exists r'. split; [exact Hin|].
    apply value_eqb_eq. congruence.
Qed.

Lemma kept_rows_In i rs r : In r (kept_rows i rs) -> In r rs.
Proof.
  intros H. apply list_elem_of_In. eapply elem_of_sublist.
  - apply list_elem_of_In. exact H.
  - apply kept_rows_sublist.
Qed.

Lemma kept_rows_keys_In i rs v :
  In v (map (cell_at i) (kept_rows i rs)) <-> In v (map (cell_at i) rs).
Proof.
  split.
  - rewrite !in_map_iff. intros (r & E & Hr). exists r. split; [exact E|].
    apply kept_rows_In in Hr. exact Hr.
  - induction rs as [|r rs IH]; [tauto|].
    rewrite kept_rows_cons. cbn [map In].
    destruct (existsb _ rs) eqn:Ex.
    + intros [<- | H]; [|exact (IH H)].
      apply IH, existsb_same_key, Ex.
    + cbn [map In]. intros [<- | H]; [left; reflexivity | right; exact (IH H)].
Qed.

Lemma kept_rows_keys_NoDup i rs : NoDup (map (cell_at i) (kept_rows i rs)).
Proof.
  induction rs as [|r rs IH]; [constructor|].
  rewrite kept_rows_cons. destruct (existsb _ rs) eqn:Ex; [exact IH|].
  cbn [map]. constructor; [|exact IH].
  rewrite list_elem_of_In, kept_rows_keys_In, <- existsb_same_key. congruence.
Qed.

Lemma kept_rows_NoDup i rs : NoDup (map (cell_at i) rs) -> kept_rows i rs = rs.
Proof.
  induction rs as [|r rs IH]; [reflexivity|].
  cbn [map]. intros H. apply NoDup_cons in H. destruct H as [Hr Hrs].
  rewrite kept_rows_cons. destruct (existsb _ rs) eqn:Ex.
  - exfalso. apply Hr, list_elem_of_In, existsb_same_key, Ex.
  - rewrite (IH Hrs). reflexivity.
Qed.

Lemma kept_rows_length i rs :
  length (kept_rows i rs) = length (unique (map (cell_at i) rs)).
Proof.
  rewrite <- (length_map (cell_at i) (kept_rows i rs)).
  apply Permutation_length, NoDup_Permutation.
  - apply kept_rows_keys_NoDup.
  - apply unique_NoDup.
  - intros v. rewrite !list_elem_of_In, kept_rows_keys_In, unique_In. reflexivity.
Qed.

Lemma get_loc_set_dtype_ne name n d cols :
  n <> name -> get_loc n (set_dtype name d cols) = get_loc n cols.
Proof.
  intros Hne. induction cols as [|[n0 d0] cols IH]; [reflexivity|].
  cbn [set_dtype]. destruct (String.eqb n0 name) eqn:E; cbn [get_loc].
  - apply String.eqb_eq in E. subst n0.
    assert (String.eqb name n = false) as -> by (apply String.eqb_neq; congruence).
    reflexivity.
  - rewrite IH. reflexivity.
Qed.

Lemma get_loc_set_dtype_eq name d cols j d0 :
  get_loc name cols = Some (j, d0) ->
  get_loc name (set_dtype name d cols) = Some (j, d).
Proof.
  revert j. induction cols as [|[n0 d1] cols IH]; intros j; [discriminate|].
  cbn [set_dtype get_loc]. destruct (String.eqb n0 name) eqn:E.
  - intros [= <- _]. cbn [get_loc]. rewrite E. reflexivity.
  - cbn [get_loc]. rewrite E.
    destruct (get_loc name cols) as [[j' d']|]; [|discriminate].
    intros [= <- <-]. rewrite (IH j' eq_refl). reflexivity.
Qed.

Lemma set_dtype_twice name d cols :
  set_dtype name d (set_dtype name d cols) = set_dtype name d cols.
Proof.
  induction cols as [|[n0 d0] cols IH]; [reflexivity|].
  cbn [set_dtype]. destruct (String.eqb n0 name) eqn:E; cbn [set_dtype]; rewrite E.
  - reflexivity.
  - rewrite IH. reflexivity.
Qed.

Lemma clean_value_idempotent x : clean_value (clean_value x) = clean_value x.
Proof.
  destruct x as [s| |]; [|reflexivity..]. cbn [clean_value].
  destruct (StrFacts.strip_lower_clean s) as (_ & _ & _ & Hs & Hl).
  cbv zeta in Hs, Hl. rewrite Hs, Hl. reflexivity.
Qed.

Lemma clean_columns_explicit df :
  clean_columns (columns_to_clean settings) df
  = Ok (match get_loc "categories" (columns df) with
        | Some (j, d) =>
            mkDataFrame
              (set_dtype "categories"
                 (s_dtype (series_apply clean_value
                             (mkSeries d (map (cell_at j) (rows df)))))
                 (columns df))
              (map (clean_row df) (rows df))
        | None => df
        end).
Proof.
  cbn [columns_to_clean settings clean_columns].
  unfold has_column, getitem, setitem, clean_row.
  destruct (get_loc "categories" (columns df)) as [[j d]|] eqn:E; [|reflexivity].
  cbn [bind]. unfold series_apply. cbn [s_values s_dtype].
  rewrite set_cells_map. reflexivity.
Qed.

(** The loader returns [loaded_frame]. *)
Lemma load_and_clean_data_loaded read_csv path raw i d :
  read_csv path = Ok raw ->
  get_loc "id" (columns raw) = Some (i, d) ->
  load_and_clean_data read_csv path = ([], Some (loaded_frame raw i)).
Proof.
  intros Hread Hloc. unfold load_and_clean_data, load_and_clean_data_try.
  rewrite Hread. cbn [bind]. rewrite (drop_duplicates_id raw i d Hloc). cbn [bind].
  rewrite clean_columns_explicit. cbn [bind columns rows]. unfold loaded_frame.
  destruct (get_loc "categories" (columns raw)) as [[j d0]|] eqn:E; [|reflexivity].
  unfold clean_row. cbn [columns]. rewrite E. reflexivity.
Qed.

Lemma loaded_frame_rows raw i :
  rows (loaded_frame raw i) = map (clean_row raw) (kept_rows i (rows raw)).
Proof.
  unfold loaded_frame, clean_row.
  destruct (get_loc "categories" (columns raw)) as [[j d]|]; [reflexivity|].
  cbn [rows]. rewrite map_id. reflexivity.
Qed.

Lemma loaded_frame_loc raw i name :
  loc_of name (columns (loaded_frame raw i)) = loc_of name (columns raw).
Proof.
  unfold loaded_frame.
  destruct (get_loc "categories" (columns raw)) as [[j d]|]; [|reflexivity].
  apply loc_of_set_dtype.
Qed.

(** The cells of the loaded frame in a column that is not cleaned are those
    of the rows kept. *)
Lemma loaded_frame_column raw i name :
  name <> "categories" ->
  column_values (loaded_frame raw i) name
  = map (cell raw name) (kept_rows i (rows raw)).
Proof.
  intros Hne. unfold column_values. rewrite loaded_frame_rows, map_map.
  apply map_ext. intros r.
  rewrite (cell_same_loc raw (loaded_frame raw i)) by apply loaded_frame_loc.
  apply clean_row_other, Hne.
Qed.

Lemma id_column_kept raw i d :
  get_loc "id" (columns raw) = Some (i, d) ->
  column_values (loaded_frame raw i) "id"
  = map (cell_at i) (kept_rows i (rows raw)) /\
  column_values raw "id" = map (cell_at i) (rows raw).
Proof.
  intros Hloc.
  assert (Hc : forall r, cell raw "id" r = cell_at i r).
  { intros r. unfold cell. rewrite Hloc. reflexivity. }
  split.
  - rewrite loaded_frame_column by discriminate. apply map_ext, Hc.
  - unfold column_values. apply map_ext, Hc.
Qed.

Lemma cell_at_cells i rs :
  map (cell_at i) rs = map (fun cells => nth i cells VNaN) (map snd rs).
Proof. rewrite map_map. reflexivity. Qed.

Lemma set_dtype_same name cols j d :
  get_loc name cols = Some (j, d) -> set_dtype name d cols = cols.
Proof.
  revert j. induction cols as [|[n0 d0] cols IH]; intros j; [reflexivity|].
  cbn [get_loc set_dtype]. destruct (String.eqb n0 name).
  - intros [= _ ->]. reflexivity.
  - destruct (get_loc name cols) as [[j' d']|]; [|discriminate].
    intros [= _ <-]. rewrite (IH j' eq_refl). reflexivity.
Qed.

Lemma insert_own_cell j (cells : list value) :
  <[j := nth j cells VNaN]> cells = cells.
Proof.
  apply list_insert_id'. intros Hlt.
  destruct (nth_lookup_or_length cells j VNaN) as [E | Hge]; [exact E | lia].
Qed.

Lemma series_apply_clean_twice d vs :
  s_dtype (series_apply clean_value
             (mkSeries (s_dtype (series_apply clean_value (mkSeries d vs)))
                       (map clean_value vs)))
  = s_dtype (series_apply clean_value (mkSeries d vs)).
Proof.
  unfold series_apply. cbn [s_values s_dtype].
  rewrite map_map, (map_ext _ _ clean_value_idempotent).
  destruct (existsb is_str (map clean_value vs)); [reflexivity|].
  destruct (map clean_value vs); reflexivity.
Qed.

Lemma df_empty_cases df :
  df_empty df = true <-> rows df = [] \/ columns df = [].
Proof.
  unfold df_empty. destruct (rows df) as [|r rs], (columns df) as [|c cs];
    split; try reflexivity; try (intros _; auto; fail);
    try discriminate; intros [C | C]; discriminate.
Qed.

(** An empty frame without an ['id'] column is loaded as it is. *)
Lemma load_and_clean_data_empty read_csv path raw :
  read_csv path = Ok raw ->
  df_empty raw = true ->
  load_and_clean_data read_csv path = ([], Some raw).
Proof.
  intros Hread He. unfold load_and_clean_data, load_and_clean_data_try.
  rewrite Hread. cbn [bind]. unfold drop_duplicates. rewrite He. cbn [bind].
  rewrite clean_columns_explicit. cbn [bind].
  destruct (get_loc "categories" (columns raw)) as [[j d]|] eqn:Ecat; [|reflexivity].
  apply df_empty_cases in He. destruct He as [Hr | Hc].
  - rewrite Hr. cbn [map]. unfold series_apply. cbn [s_values s_dtype map existsb].
    rewrite (set_dtype_same _ _ _ _ Ecat). destruct raw as [cols rs].
    cbn [rows columns] in *. subst rs. reflexivity.
  - rewrite Hc in Ecat. discriminate.
Qed.

Lemma load_and_clean_data_Some_inv read_csv path out cleaned :
  load_and_clean_data read_csv path = (out, Some cleaned) ->
  exists raw,
    read_csv path = Ok raw /\
    ((exists i d, get_loc "id" (columns raw) = Some (i, d) /\
                  cleaned = loaded_frame raw i) \/
     (df_empty raw = true /\ cleaned = raw)).
Proof.
  intros H. destruct (read_csv path) as [raw|e] eqn:Hread.
  - exists raw. split; [reflexivity|].
    destruct (get_loc "id" (columns raw)) as [[i d]|] eqn:Hloc.
    + rewrite (load_and_clean_data_loaded read_csv path raw i d Hread Hloc) in H.
      injection H as _ <-. left. exists i, d. split; reflexivity.
    + destruct (df_empty raw) eqn:He.
      * rewrite (load_and_clean_data_empty read_csv path raw Hread He) in H.
        injection H as _ <-. right. split; reflexivity.
      * exfalso. revert H. unfold load_and_clean_data, load_and_clean_data_try.
        rewrite Hread. cbn [bind]. unfold drop_duplicates. rewrite He.
        cbn [settings duplicate_subset get_locs]. rewrite Hloc. discriminate.
  - exfalso. revert H. unfold load_and_clean_data, load_and_clean_data_try.
    rewrite Hread. discriminate.
Qed.

(** A frame whose identifiers are pairwise different and whose category
    cells are clean is returned by the loader as it is. *)
Lemma load_and_clean_data_fixed read_csv path f :
  read_csv path = Ok f ->
  (df_empty f = true \/
   exists i d, get_loc "id" (columns f) = Some (i, d) /\
               NoDup (map (cell_at i) (rows f))) ->
  (forall j d, get_loc "categories" (columns f) = Some (j, d) ->
     (forall r, In r (rows f) -> clean_value (cell_at j r) = cell_at j r) /\
     s_dtype (series_apply clean_value (mkSeries d (map (cell_at j) (rows f)))) = d) ->
  load_and_clean_data read_csv path = ([], Some f).
Proof.
  intros Hread Hid Hcat.
  assert (Hdrop : drop_duplicates f [duplicate_subset settings] (duplicate_keep settings)
                  = Ok f).
  { destruct Hid as [He | (i & d & Hloc & Hnd)].
    - unfold drop_duplicates. rewrite He. reflexivity.
    - rewrite (drop_duplicates_id f i d Hloc), (kept_rows_NoDup i (rows f) Hnd).
      destruct f; reflexivity. }
  unfold load_and_clean_data, load_and_clean_data_try.
  rewrite Hread. cbn [bind]. rewrite Hdrop. cbn [bind].
  rewrite clean_columns_explicit. cbn [bind].
  destruct (get_loc "categories" (columns f)) as [[j d]|] eqn:Ecat;
    [|reflexivity].
  destruct (Hcat j d eq_refl) as [Hclean Hd]. rewrite Hd.
  rewrite (set_dtype_same _ _ _ _ Ecat).
  assert (Hrows : map (clean_row f) (rows f) = rows f).
  { rewrite <- (map_id (rows f)) at 2. apply map_ext_in. intros [l cells] Hr.
    unfold clean_row. rewrite Ecat. cbn [fst snd]. rewrite (Hclean _ Hr).
    unfold cell_at. cbn [snd]. rewrite insert_own_cell. reflexivity. }
  rewrite Hrows. destruct f; reflexivity.
Qed.

Lemma loaded_frame_cells raw i d :
  get_loc "id" (columns raw) = Some (i, d) ->
  get_loc "id" (columns (loaded_frame raw i)) = Some (i, d) /\
  map (cell_at i) (rows (loaded_frame raw i))
  = map (cell_at i) (kept_rows i (rows raw)) /\
  forall j d1, get_loc "categories" (columns (loaded_frame raw i)) = Some (j, d1) ->
    exists d0,
      get_loc "categories" (columns raw) = Some (j, d0) /\
      d1 = s_dtype (series_apply clean_value
                      (mkSeries d0 (map (cell_at j) (kept_rows i (rows raw))))) /\
      map (cell_at j) (rows (loaded_frame raw i))
      = map clean_value (map (cell_at j) (kept_rows i (rows raw))).
Proof.
  intros Hloc. rewrite loaded_frame_rows. unfold loaded_frame.
  destruct (get_loc "categories" (columns raw)) as [[j0 d0]|] eqn:Ecat.
  - assert (Hij : i <> j0) by (eapply (get_loc_distinct "id" "categories");
                                [discriminate | eassumption | eassumption]).
    assert (Hrow : forall r, clean_row raw r
                             = (fst r, <[j0 := clean_value (cell_at j0 r)]> (snd r))).
    { intros r. unfold clean_row. rewrite Ecat. reflexivity. }
    cbn [columns]. split; [|split].
    + rewrite get_loc_set_dtype_ne by discriminate. exact Hloc.
    + rewrite map_map. apply map_ext. intros [l cells]. rewrite Hrow.
      apply cell_at_insert_ne, Hij.
    + intros j d1 H.
      rewrite (get_loc_set_dtype_eq "categories" _ (columns raw) j0 d0 Ecat) in H.
      injection H as <- <-. exists d0. split; [reflexivity|]. split; [reflexivity|].
      rewrite !map_map. apply map_ext. intros [l cells]. rewrite Hrow.
      apply (cell_at_insert_eq j0 clean_value). reflexivity.
  - cbn [columns]. split; [exact Hloc|]. split.
    + rewrite map_map. apply map_ext. intros r. unfold clean_row. rewrite Ecat.
      reflexivity.
    + intros j d1 H. rewrite Ecat in H. discriminate.
Qed.

(** X1: the identifiers of the frame the loader returns are pairwise
    different. *)
Theorem load_identifiers_unique read_csv path raw :
  read_csv path = Ok raw ->
  has_column raw "id" = true ->
  exists cleaned,
    load_and_clean_data read_csv path = ([], Some cleaned) /\
    NoDup (column_values cleaned "id").
Proof.
  intros Hread Hid. destruct (has_column_loc _ _ Hid) as (i & d & Hloc).
  exists (loaded_frame raw i).
  split; [exact (load_and_clean_data_loaded _ _ _ _ _ Hread Hloc)|].
  rewrite (proj1 (id_column_kept raw i d Hloc)). apply kept_rows_keys_NoDup.
Qed.

Lemma load_identifiers_unique_witness :
  exists cleaned,
    load_and_clean_data Sample.read_csv "data.csv" = ([], Some cleaned) /\
    NoDup (column_values cleaned "id").
Proof.
  exact (load_identifiers_unique Sample.read_csv "data.csv" Sample.raw
           eq_refl eq_refl).
Defined.

(** X2: the loader loses no identifier and invents none among those of
    the frame that [pd.read_csv] parsed: the identifiers of the frame it
    returns are those of the parsed frame, and it returns as many records
    as the parsed frame has distinct identifiers.  Identifiers are the
    values of the parsed ['id'] column: two texts of the file that
    [read_csv] parses to the same value are one identifier here. *)
Theorem load_keeps_every_identifier read_csv path raw :
  read_csv path = Ok raw ->
  has_column raw "id" = true ->
  exists cleaned,
    load_and_clean_data read_csv path = ([], Some cleaned) /\
    (forall v, In v (column_values cleaned "id") <-> In v (column_values raw "id")) /\
    length (rows cleaned) = length (unique (column_values raw "id")).
Proof.
  intros Hread Hid. destruct (has_column_loc _ _ Hid) as (i & d & Hloc).
  exists (loaded_frame raw i).
  split; [exact (load_and_clean_data_loaded _ _ _ _ _ Hread Hloc)|].
  destruct (id_column_kept raw i d Hloc) as [-> ->]. split.
  - intros v. apply kept_rows_keys_In.
  - rewrite loaded_frame_rows, length_map. apply kept_rows_length.
Qed.

Lemma load_keeps_every_identifier_witness :
  exists cleaned,
    load_and_clean_data Sample.read_csv "data.csv" = ([], Some cleaned) /\
    length (rows cleaned) = 2.
Proof.
  destruct (load_keeps_every_identifier Sample.read_csv "data.csv" Sample.raw
              eq_refl eq_refl) as (cleaned & H1 & _ & H3).
  exists cleaned. split; [exact H1 | exact H3].
Defined.

(** X3: loading is idempotent on the records.  A frame that has the
    columns and, row by row, the cells of a frame the loader returned --
    whatever its row labels, which [read_csv] numbers anew from 0 -- is
    returned by the loader as it is, and nothing is printed. *)
Theorem load_and_clean_data_idempotent
    read_csv path out cleaned read_again path' again :
  load_and_clean_data read_csv path = (out, Some cleaned) ->
  read_again path' = Ok again ->
  columns again = columns cleaned ->
  map snd (rows again) = map snd (rows cleaned) ->
  load_and_clean_data read_again path' = ([], Some again).
Proof.
  intros H Hagain Hcols Hcells.
  assert (Hat : forall k, map (cell_at k) (rows again) = map (cell_at k) (rows cleaned)).
  { intros k. rewrite !cell_at_cells, Hcells. reflexivity. }
  destruct (load_and_clean_data_Some_inv _ _ _ _ H)
    as (raw & _ & [(i & d & Hloc & ->) | (He & ->)]).
  - destruct (loaded_frame_cells raw i d Hloc) as (Hid & Hkeys & Hcat).
    apply (load_and_clean_data_fixed read_again path' again Hagain).
    + right. exists i, d. rewrite Hcols. split; [exact Hid|].
      rewrite Hat, Hkeys. apply kept_rows_keys_NoDup.
    + intros j d1 Hj. rewrite Hcols in Hj.
      destruct (Hcat j d1 Hj) as (d0 & _ & -> & Hvals). split.
      * intros r Hr.
        assert (In (cell_at j r) (map (cell_at j) (rows again))) as Hin
            by (apply in_map, Hr).
        rewrite Hat, Hvals in Hin. apply in_map_iff in Hin.
        destruct Hin as (x & <- & _). apply clean_value_idempotent.
      * rewrite Hat, Hvals. apply series_apply_clean_twice.
  - apply df_empty_cases in He.
    assert (Hempty : rows again = [] \/ columns again = []).
    { destruct He as [Hr | Hc]; [left | right; congruence].
      rewrite Hr in Hcells. destruct (rows again); [reflexivity | discriminate]. }
    apply (load_and_clean_data_fixed read_again path' again Hagain).
    + left. apply df_empty_cases, Hempty.
    + intros j d1 Hj. destruct Hempty as [Hr | Hc].
      * rewrite Hr. split; [intros r []|]. reflexivity.
      * rewrite Hc in Hj. discriminate.
Qed.

Lemma load_and_clean_data_idempotent_witness :
  load_and_clean_data
    (fun _ => Ok (mkDataFrame Sample.cols
                    [Sample.record 0 "2" "B" "LA" "CA" "burgers";
                     Sample.record 1 "1" "A2" "LA" "CA" "pizza"]))
    "cleaned.csv"
  = ([], Some (mkDataFrame Sample.cols
                 [Sample.record 0 "2" "B" "LA" "CA" "burgers";
                  Sample.record 1 "1" "A2" "LA" "CA" "pizza"])).
Proof.
  apply (load_and_clean_data_idempotent Sample.read_csv "data.csv" []
           Sample.cleaned
           (fun _ => Ok (mkDataFrame Sample.cols
                           [Sample.record 0 "2" "B" "LA" "CA" "burgers";
                            Sample.record 1 "1" "A2" "LA" "CA" "pizza"]))
           "cleaned.csv");
    reflexivity.
Defined.

(** X4: a file without a ['categories'] column is loaded without error,
    and the frame returned is the one [drop_duplicates] gave, untouched. *)
Theorem load_without_categories read_csv path raw :
  read_csv path = Ok raw ->
  has_column raw "id" = true ->
  has_column raw "categories" = false ->
  exists deduped,
    drop_duplicates raw ["id"] keep_last = Ok deduped /\
    load_and_clean_data read_csv path = ([], Some deduped).
Proof.
  intros Hread Hid Hcat. destruct (has_column_loc _ _ Hid) as (i & d & Hloc).
  exists (mkDataFrame (columns raw) (kept_rows i (rows raw))).
  split; [exact (drop_duplicates_id raw i d Hloc)|].
  rewrite (load_and_clean_data_loaded _ _ _ _ _ Hread Hloc).
  unfold loaded_frame. unfold has_column in Hcat.
  destruct (get_loc "categories" (columns raw)); [discriminate | reflexivity].
Qed.

Lemma load_without_categories_witness :
  load_and_clean_data
    (fun _ => Ok (mkDataFrame [("id", object); ("name", object)]
                    [(0, [VStr "1"; VStr " A "]); (1, [VStr "1"; VStr " B "])]))
    "data.csv"
  = ([], Some (mkDataFrame [("id", object); ("name", object)]
                 [(1, [VStr "1"; VStr " B "])])).
Proof.
  destruct (load_without_categories
              (fun _ => Ok (mkDataFrame [("id", object); ("name", object)]
                              [(0, [VStr "1"; VStr " A "]); (1, [VStr "1"; VStr " B "])]))
              "data.csv" _ eq_refl eq_refl eq_refl) as (deduped & H1 & H2).
  rewrite H2. vm_compute in H1. injection H1 as <-. reflexivity.
Defined.

Lemma lstrip_lower s : Str.lstrip (Str.lower s) = Str.lower (Str.lstrip s).
Proof.
  induction s as [|c s IH]; [reflexivity|].
  cbn [Str.lower Str.lstrip]. rewrite StrFacts.is_space_lower_char.
  destruct (Str.is_space c); [exact IH | reflexivity].
Qed.

Lemma rstrip_lower s : Str.rstrip (Str.lower s) = Str.lower (Str.rstrip s).
Proof.
  induction s as [|c s IH]; [reflexivity|].
  cbn [Str.lower Str.rstrip]. rewrite IH.
  destruct (Str.rstrip s) as [|c' t]; cbn [Str.lower].
  - rewrite StrFacts.is_space_lower_char. destruct (Str.is_space c); reflexivity.
  - reflexivity.
Qed.

Lemma strip_lower s : Str.strip (Str.lower s) = Str.lower (Str.strip s).
Proof. unfold Str.strip. rewrite lstrip_lower, rstrip_lower. reflexivity. Qed.

(** X5: the cleaning of line 39 applied twice is the cleaning applied
    once, and two texts that differ in letter case only are cleaned to the
    same value. *)
Theorem clean_value_merges_case (x : value) (s t : string) :
  Str.lower s = Str.lower t ->
  clean_value (clean_value x) = clean_value x /\
  clean_value (VStr s) = clean_value (VStr t).
Proof.
  intros H. split; [apply clean_value_idempotent|].
  cbn [clean_value]. rewrite <- !strip_lower, H. reflexivity.
Qed.

Lemma clean_value_merges_case_witness :
  clean_value (VStr " Burgers ") = clean_value (VStr " BURGERS ").
Proof.
  exact (proj2 (clean_value_merges_case VNaN " Burgers " " BURGERS " eq_refl)).
Defined.

(** * Further properties of the filters *)

Lemma select_rows_sublist rs mask : sublist (select_rows rs mask) rs.
Proof.
  revert mask. induction rs as [|r rs IH]; intros [|b mask]; cbn [select_rows].
  - constructor.
  - constructor.
  - apply sublist_nil_l.
  - destruct b; constructor; apply IH.
Qed.

Lemma boolean_index_selects df mask :
  columns (boolean_index df mask) = columns df /\
  sublist (rows (boolean_index df mask)) (rows df).
Proof. split; [reflexivity | apply select_rows_sublist]. Qed.

Lemma restrict_restrict df (p q : Row -> bool) :
  restrict (restrict df p) q = restrict df (fun r => p r && q r).
Proof.
  unfold restrict. cbn [columns rows]. f_equal.
  induction (rows df) as [|r rs IH]; [reflexivity|].
  cbn [List.filter]. destruct (p r); cbn [List.filter andb]; rewrite IH; reflexivity.
Qed.

Lemma restrict_ext df (p q : Row -> bool) :
  (forall r, In r (rows df) -> p r = q r) -> restrict df p = restrict df q.
Proof.
  intros H. unfold restrict. f_equal. apply filter_ext_in_rows, H.
Qed.

Lemma py_eq_ci_match x p : py_eq x (VStr p) = true -> ci_match x p = true.
Proof.
  destruct x as [t| |]; cbn [py_eq ci_match]; try discriminate.
  intros H. apply String.eqb_eq in H. subst t. apply String.eqb_refl.
Qed.

Lemma filter_data_by_city_province_all df (q : value) :
  has_column df "province" = true ->
  filter_data_by_city_province df (VStr "All") q
  = Ok (restrict df (fun r => py_eq (cell df "province" r) q)).
Proof.
  intros H. unfold filter_data_by_city_province. cbn [py_eq String.eqb].
  change (String.eqb "All" "All") with true. cbv iota.
  apply boolean_index_series_eq, H.
Qed.

Lemma column_dtype_has df name d :
  column_dtype df name = Some d -> has_column df name = true.
Proof.
  unfold column_dtype, has_column.
  destruct (get_loc name (columns df)) as [[? ?]|]; [reflexivity | discriminate].
Qed.

Lemma no_number_has_str (vs : list value) :
  forallb (fun v => match v with VNum _ => false | _ => true end) vs = true ->
  existsb is_str vs
  || forallb (fun c => match c with VNaN => true | _ => false end) vs = true.
Proof.
  induction vs as [|v vs IH]; [reflexivity|].
  destruct v as [t| |]; cbn [forallb existsb is_str andb orb];
    [reflexivity | discriminate | exact IH].
Qed.

(** A column of texts and missing cells keeps [.str] in every frame made
    of rows of its frame. *)
Lemma text_column_str_column df f name :
  text_column df name = true ->
  columns f = columns df ->
  (forall r, In r (rows f) -> In r (rows df)) ->
  str_column f name = true.
Proof.
  unfold text_column, str_column. intros H Hcols Hrows. rewrite Hcols.
  destruct (get_loc name (columns df)) as [[i [|]]|]; try discriminate.
  unfold has_str_accessor. cbn [s_dtype s_values]. apply no_number_has_str.
  rewrite forallb_forall in H. apply forallb_forall. intros v Hv.
  apply in_map_iff in Hv. destruct Hv as (r & <- & Hr). apply H, Hrows, Hr.
Qed.

(** An [object] column with a text in one of its rows has [.str]. *)
Lemma str_column_of_text df name r t :
  column_dtype df name = Some object ->
  In r (rows df) ->
  cell df name r = VStr t ->
  str_column df name = true.
Proof.
  unfold column_dtype, str_column, cell.
  destruct (get_loc name (columns df)) as [[i d]|]; [|discriminate].
  intros [= ->] Hr Hcell. unfold has_str_accessor. cbn [s_dtype s_values].
  apply orb_true_iff. left. apply existsb_exists. exists (cell_at i r).
  split; [apply in_map, Hr | rewrite Hcell; reflexivity].
Qed.

Lemma str_column_column_dtype df name :
  str_column df name = true -> column_dtype df name = Some object.
Proof.
  unfold str_column, column_dtype, has_str_accessor.
  destruct (get_loc name (columns df)) as [[i [|]]|]; cbn [s_dtype];
    [reflexivity | discriminate | discriminate].
Qed.

(** The table of lines 83 and 108 for selected texts: [f] is what the
    province filter leaves, on which the second filter asks for [.str]
    unless the city is ['All']. *)
Lemma filtered_city_province_df_shown df (c p : string) f :
  has_column df "province" = true ->
  filter_data_by_province df (VStr p) = Ok f ->
  (c <> "All" -> str_column f "city" = true /\ str_column f "province" = true) ->
  filtered_city_province_df df (VStr c) (VStr p) = Ok (restrict df (shown df c p)).
Proof.
  intros Hhas Hf Hstr.
  unfold filtered_city_province_df. rewrite Hf. cbn [bind].
  destruct (filter_data_by_province_spec df (VStr p) Hhas) as [HLA Hother].
  assert (Hsecond : forall g : DataFrame,
             columns g = columns df ->
             (c <> "All" ->
              str_column g "city" = true /\ str_column g "province" = true) ->
             filter_data_by_city_province g (VStr c) (VStr p)
             = Ok (restrict g (fun r =>
                     if String.eqb c "All" then py_eq (cell df "province" r) (VStr p)
                     else ci_match (cell df "city" r) c
                          && ci_match (cell df "province" r) p))).
  { intros g Hg Hgs.
    assert (Hcell : forall name r, cell g name r = cell df name r)
      by (intros; unfold cell; rewrite Hg; reflexivity).
    destruct (String.eqb c "All") eqn:E.
    - apply String.eqb_eq in E. subst c.
      rewrite filter_data_by_city_province_all
        by (unfold has_column in *; rewrite Hg; exact Hhas).
      f_equal. apply restrict_ext. intros r _. rewrite Hcell. reflexivity.
    - apply String.eqb_neq in E. destruct (Hgs E) as [Hgc Hgp].
      rewrite (filter_data_by_city_province_other g c p Hgc Hgp E).
      f_equal. apply restrict_ext. intros r _. rewrite !Hcell. reflexivity. }
  destruct (String.eqb p "LA") eqn:Ep.
  - apply String.eqb_eq in Ep. subst p.
    rewrite (HLA eq_refl) in Hf. injection Hf as <-.
    exact (Hsecond df eq_refl Hstr).
  - pose proof (proj1 (String.eqb_neq _ _) Ep) as Hne.
    rewrite Hother in Hf by congruence. injection Hf as <-.
    rewrite (Hsecond (restrict df _) eq_refl Hstr), restrict_restrict.
    f_equal. apply restrict_ext. intros r _. unfold shown. rewrite Ep. reflexivity.
Qed.

(** What the province filter leaves is made of rows of the frame. *)
Lemma filter_data_by_province_rows df (p : string) :
  has_column df "province" = true ->
  exists f,
    filter_data_by_province df (VStr p) = Ok f /\
    columns f = columns df /\
    (forall r, In r (rows f)
               <-> In r (rows df) /\
                   (String.eqb p "LA" || py_eq (cell df "province" r) (VStr p)) = true).
Proof.
  intros Hhas.
  destruct (filter_data_by_province_spec df (VStr p) Hhas) as [HLA Hother].
  destruct (String.eqb p "LA") eqn:Ep.
  - apply String.eqb_eq in Ep. subst p. exists df.
    split; [exact (HLA eq_refl)|]. split; [reflexivity|].
    intros r. cbn [orb]. tauto.
  - pose proof (proj1 (String.eqb_neq _ _) Ep) as Hne.
    eexists. split; [apply Hother; congruence|]. split; [reflexivity|].
    intros r. rewrite restrict_rows_In. cbn [orb]. tauto.
Qed.

Lemma filter_data_by_city_province_selects df city province out :
  filter_data_by_city_province df city province = Ok out ->
  columns out = columns df /\ sublist (rows out) (rows df).
Proof.
  unfold filter_data_by_city_province, getitem.
  destruct (py_eq city (VStr "All")).
  - destruct (get_loc "province" (columns df)) as [[j d]|]; [|discriminate].
    cbn [bind]. intros [= <-]. apply boolean_index_selects.
  - destruct (get_loc "city" (columns df)) as [[i di]|]; [|discriminate].
    cbn [bind]. unfold str_lower at 1.
    destruct (has_str_accessor _); [|discriminate]. cbn [bind].
    destruct city as [c| |]; try discriminate. cbn [py_lower bind].
    destruct (get_loc "province" (columns df)) as [[j dj]|]; [|discriminate].
    cbn [bind]. unfold str_lower.
    destruct (has_str_accessor _); [|discriminate]. cbn [bind].
    destruct province as [p| |]; try discriminate. cbn [py_lower bind].
    intros [= <-]. apply boolean_index_selects.
Qed.

(** X6: the four filters only select: the frame one of them returns has
    the columns of the frame it was given and a subsequence of its rows, in
    the same order and with the same labels and cells. *)
Theorem filters_select_rows df city province (categories_selected : list value) out :
  (filter_data_by_province df province = Ok out \/
   filter_data_by_city_province df city province = Ok out \/
   get_category_data df categories_selected province = Ok out \/
   get_pie_chart_data df categories_selected = Ok out) ->
  columns out = columns df /\ sublist (rows out) (rows df).
Proof.
  intros [H | [H | [H | H]]].
  - revert H. unfold filter_data_by_province, getitem.
    destruct (py_eq province (VStr "LA")).
    + intros [= <-]. split; reflexivity.
    + destruct (get_loc "province" (columns df)) as [[j d]|]; [|discriminate].
      cbn [bind]. intros [= <-]. apply boolean_index_selects.
  - exact (filter_data_by_city_province_selects _ _ _ _ H).
  - revert H. unfold get_category_data, getitem.
    destruct categories_selected as [|v vs].
    + cbn [bind].
      destruct (get_loc "province" (columns df)) as [[j d]|]; [|discriminate].
      cbn [bind]. intros [= <-]. apply boolean_index_selects.
    + destruct (get_loc "categories" (columns df)) as [[i di]|]; [|discriminate].
      cbn [bind boolean_index columns].
      destruct (get_loc "province" (columns df)) as [[j d]|]; [|discriminate].
      cbn [bind]. intros [= <-]. split; [reflexivity|]. cbn [rows].
      etransitivity; apply select_rows_sublist.
  - revert H. unfold get_pie_chart_data, getitem.
    destruct categories_selected as [|v vs].
    + intros [= <-]. split; reflexivity.
    + destruct (get_loc "categories" (columns df)) as [[i di]|]; [|discriminate].
      cbn [bind]. intros [= <-]. apply boolean_index_selects.
Qed.

Lemma filters_select_rows_witness :
  sublist [Sample.record 0 "1" "A" "Boston" "MA" "burgers"]
          (rows Sample.two_provinces).
Proof.
  exact (proj2 (filters_select_rows Sample.two_provinces (VStr "All") (VStr "MA")
                  [VStr "burgers"]
                  (mkDataFrame Sample.cols
                     [Sample.record 0 "1" "A" "Boston" "MA" "burgers"])
                  (or_intror (or_intror (or_introl eq_refl))))).
Defined.

(** X7: the table of lines 83-119 for a selected city and province, on a
    frame whose city and province columns hold texts and missing cells only
    (so that pandas grants [.str] on whatever rows the province filter
    leaves).  For a province other than ['LA'] and a city other than
    ['All'] it shows the rows whose province equals the selected one
    exactly and whose city matches the selected one whatever the letter
    case; for the city ['All'] the rows of exactly that province; for the
    province ['LA'] and another city the rows whose city and province both
    match whatever the case. *)
Theorem filtered_city_province_df_spec df (c p : string) :
  text_column df "city" = true ->
  text_column df "province" = true ->
  filtered_city_province_df df (VStr c) (VStr p) = Ok (restrict df (shown df c p)) /\
  (p <> "LA" -> c <> "All" ->
   forall r, shown df c p r
             = py_eq (cell df "province" r) (VStr p) && ci_match (cell df "city" r) c) /\
  (c = "All" ->
   forall r, shown df c p r = py_eq (cell df "province" r) (VStr p)) /\
  (p = "LA" -> c <> "All" ->
   forall r, shown df c p r
             = ci_match (cell df "city" r) c && ci_match (cell df "province" r) "LA").
Proof.
  intros Hc Hp. split; [|split; [|split]].
  - assert (Hhas : has_column df "province" = true)
      by (apply str_column_has, (text_column_str_column df df); auto).
    destruct (filter_data_by_province_rows df p Hhas) as (f & Hf & Hcols & Hrows).
    apply (filtered_city_province_df_shown df c p f Hhas Hf). intros _.
    split; apply (text_column_str_column df f); auto;
      intros r Hr; apply Hrows in Hr; tauto.
  - intros Hp' Hc' r. unfold shown.
    rewrite (proj2 (String.eqb_neq _ _) Hp'), (proj2 (String.eqb_neq _ _) Hc').
    cbn [orb].
    destruct (py_eq (cell df "province" r) (VStr p)) eqn:E; cbn [andb]; [|reflexivity].
    rewrite (py_eq_ci_match _ _ E), andb_true_r. reflexivity.
  - intros -> r. unfold shown. change (String.eqb "All" "All") with true. cbv iota.
    destruct (String.eqb p "LA"); cbn [orb andb]; [reflexivity|].
    destruct (py_eq (cell df "province" r) (VStr p)); reflexivity.
  - intros -> Hc' r. unfold shown.
    rewrite (proj2 (String.eqb_neq _ _) Hc'). reflexivity.
Qed.

Lemma filtered_city_province_df_spec_witness :
  filtered_city_province_df Sample.two_provinces (VStr "BOSTON") (VStr "MA")
  = Ok (mkDataFrame Sample.cols [Sample.record 0 "1" "A" "Boston" "MA" "burgers"]).
Proof.
  rewrite (proj1 (filtered_city_province_df_spec Sample.two_provinces "BOSTON" "MA"
                    eq_refl eq_refl)).
  reflexivity.
Defined.

(** X8: how [filter_data_by_city_province] fails.  A city that is not a
    text (the NaN of a missing city cell, a number) raises
    [AttributeError]; so does a city column that is not a text column when
    the city is not ['All']; a frame without a ['province'] column never
    gives a result.  With the city ['All'] and a ['province'] column the
    filter always returns a frame. *)
Theorem filter_data_by_city_province_raises df city province :
  (is_str city = false -> column_dtype df "city" = Some object ->
   exists msg, filter_data_by_city_province df city province
               = Raise (AttributeError msg)) /\
  (py_eq city (VStr "All") = false -> column_dtype df "city" = Some numeric ->
   exists msg, filter_data_by_city_province df city province
               = Raise (AttributeError msg)) /\
  (has_column df "province" = false ->
   exists e, filter_data_by_city_province df city province = Raise e) /\
  (has_column df "province" = true ->
   exists out, filter_data_by_city_province df (VStr "All") province = Ok out).
Proof.
  split; [|split; [|split]].
  - intros Hs Hc. destruct (column_dtype_loc _ _ _ Hc) as [i Hi].
    unfold filter_data_by_city_province, getitem.
    destruct city as [c| |]; [discriminate| |]; cbn [py_eq]; rewrite Hi;
      cbn [bind]; unfold str_lower; destruct (has_str_accessor _);
      cbn [bind py_lower]; eexists; reflexivity.
  - intros Hs Hc. destruct (column_dtype_loc _ _ _ Hc) as [i Hi].
    unfold filter_data_by_city_province, getitem. rewrite Hs, Hi.
    cbn [bind]. unfold str_lower, has_str_accessor. cbn [s_dtype bind].
    eexists. reflexivity.
  - intros Hp. unfold has_column in Hp.
    destruct (get_loc "province" (columns df)) as [[j d]|] eqn:Ej; [discriminate|].
    unfold filter_data_by_city_province, getitem. rewrite Ej.
    destruct (py_eq city (VStr "All")); [eexists; reflexivity|].
    destruct (get_loc "city" (columns df)) as [[i di]|]; [|eexists; reflexivity].
    cbn [bind]. unfold str_lower.
    destruct (has_str_accessor _); [|eexists; reflexivity]. cbn [bind].
    destruct city; cbn [py_lower bind]; eexists; reflexivity.
  - intros Hp. rewrite (filter_data_by_city_province_all df province Hp).
    eexists. reflexivity.
Qed.

Lemma filter_data_by_city_province_raises_witness :
  exists msg, filter_data_by_city_province Sample.two_provinces VNaN (VStr "MA")
              = Raise (AttributeError msg).
Proof.
  exact (proj1 (filter_data_by_city_province_raises Sample.two_provinces VNaN
                  (VStr "MA")) eq_refl eq_refl).
Defined.

(** X9: with categories selected, [get_category_data] returns exactly the
    rows whose category is one of them and whose province equals the
    selected one; when the frame has no ['categories'] column it raises
    [KeyError], which it does not do for an empty selection. *)
Theorem get_category_data_selection df (S : list value) p :
  S <> [] ->
  has_column df "province" = true ->
  (has_column df "categories" = true ->
   get_category_data df S p
   = Ok (restrict df (fun r => existsb (value_eqb (cell df "categories" r)) S
                               && py_eq (cell df "province" r) p))) /\
  (has_column df "categories" = false ->
   get_category_data df S p = Raise (KeyError "'categories'") /\
   exists out, get_category_data df [] p = Ok out).
Proof.
  intros HS Hp. destruct S as [|v vs]; [congruence|]. split.
  - intros Hc. unfold get_category_data.
    rewrite (boolean_index_isin df "categories" (v :: vs) Hc). cbn [bind].
    rewrite (boolean_index_series_eq (restrict df _) "province" p Hp).
    rewrite restrict_restrict. reflexivity.
  - intros Hc. unfold has_column in Hc. split.
    + unfold get_category_data, getitem.
      destruct (get_loc "categories" (columns df)); [discriminate | reflexivity].
    + unfold get_category_data. cbn [bind].
      rewrite (boolean_index_series_eq df "province" p Hp). eexists. reflexivity.
Qed.

Lemma get_category_data_selection_witness :
  get_category_data Sample.two_provinces [VStr "burgers"; VStr "pizza"] (VStr "MA")
  = Ok (mkDataFrame Sample.cols [Sample.record 0 "1" "A" "Boston" "MA" "burgers"]).
Proof.
  rewrite (proj1 (get_category_data_selection Sample.two_provinces
                    [VStr "burgers"; VStr "pizza"] (VStr "MA")
                    ltac:(discriminate) eq_refl) eq_refl).
  reflexivity.
Defined.

Lemma filter_none (p : Row -> bool) rs :
  (forall r, In r rs -> p r = false) -> List.filter p rs = [].
Proof.
  induction rs as [|r rs IH]; intros H; [reflexivity|].
  cbn [List.filter]. rewrite (H r (or_introl eq_refl)).
  apply IH. intros r' Hr'. apply H. right. exact Hr'.
Qed.

(** X10: in its initial state (province ['All']) the table of lines 83-119
    shows no record, whatever is chosen as the city, unless some record has
    the text ['All'] as its province: the province filter does not treat
    ['All'] as a sentinel.  A chosen city that is a text gives the empty
    table; one that is not (the NaN that a record without a city adds to
    the cities offered) raises [AttributeError]. *)
Theorem default_selection_shows_nothing df (city : value) :
  column_dtype df "city" = Some object ->
  column_dtype df "province" = Some object ->
  (forall r, In r (rows df) -> cell df "province" r <> VStr "All") ->
  (is_str city = true ->
   filtered_city_province_df df city (VStr "All")
   = Ok (mkDataFrame (columns df) [])) /\
  (is_str city = false ->
   exists msg, filtered_city_province_df df city (VStr "All")
               = Raise (AttributeError msg)).
Proof.
  intros Hc Hp Hnone.
  pose proof (column_dtype_has _ _ _ Hp) as Hhas.
  assert (Hf : filter_data_by_province df (VStr "All")
               = Ok (mkDataFrame (columns df) [])).
  { destruct (filter_data_by_province_spec df (VStr "All") Hhas) as [_ Hother].
    rewrite Hother by discriminate. unfold restrict. do 2 f_equal.
    apply filter_none. intros r Hr.
    destruct (py_eq (cell df "province" r) (VStr "All")) eqn:E; [|reflexivity].
    apply py_eq_true in E. destruct E as [E _]. destruct (Hnone r Hr E). }
  destruct (column_dtype_loc _ _ _ Hc) as [i Hi].
  split.
  - destruct city as [c| |]; try discriminate. intros _.
    rewrite (filtered_city_province_df_shown df c "All" _ Hhas Hf).
    + unfold restrict. do 2 f_equal. apply filter_none. intros r Hr. unfold shown.
      assert (E : py_eq (cell df "province" r) (VStr "All") = false).
      { destruct (py_eq (cell df "province" r) (VStr "All")) eqn:E; [|reflexivity].
        apply py_eq_true in E. destruct E as [E _]. destruct (Hnone r Hr E). }
      rewrite E. reflexivity.
    + intros _. unfold str_column, column_dtype in *. cbn [columns rows map].
      destruct (get_loc "city" (columns df)) as [[? ?]|]; [|discriminate].
      destruct (get_loc "province" (columns df)) as [[? ?]|]; [|discriminate].
      injection Hc as ->. injection Hp as ->. split; reflexivity.
  - intros Hs. unfold filtered_city_province_df. rewrite Hf. cbn [bind].
    unfold filter_data_by_city_province, getitem. cbn [columns rows map].
    rewrite Hi. cbn [bind].
    destruct city as [c| |]; [discriminate| |]; cbn [py_eq];
      unfold str_lower, has_str_accessor;
      cbn [s_dtype s_values existsb forallb orb map bind py_lower];
      eexists; reflexivity.
Qed.

Lemma default_selection_shows_nothing_witness :
  filtered_city_province_df Sample.two_provinces (VStr "Boston") (VStr "All")
  = Ok (mkDataFrame Sample.cols []) /\
  exists msg, filtered_city_province_df Sample.two_provinces VNaN (VStr "All")
              = Raise (AttributeError msg).
Proof.
  assert (Hnone : forall r, In r (rows Sample.two_provinces) ->
                            cell Sample.two_provinces "province" r <> VStr "All")
    by (intros r [<- | [<- | [<- | []]]]; discriminate).
  split.
  - exact (proj1 (default_selection_shows_nothing Sample.two_provinces (VStr "Boston")
                    eq_refl eq_refl Hnone) eq_refl).
  - exact (proj2 (default_selection_shows_nothing Sample.two_provinces VNaN
                    eq_refl eq_refl Hnone) eq_refl).
Defined.

(** X11: the cities offered for a selected province (other than ['All'])
    are, each once, the cities of the records of exactly that province, and
    every text among them, once chosen, gives a table that is not empty. *)
Theorem available_city_is_shown df (p : string) cities :
  column_dtype df "city" = Some object ->
  column_dtype df "province" = Some object ->
  p <> "All" ->
  available_cities df (VStr p) = Ok cities ->
  NoDup cities /\
  (forall v, In v cities
             <-> exists r, In r (rows df) /\
                           py_eq (cell df "province" r) (VStr p) = true /\
                           cell df "city" r = v) /\
  (forall c, In (VStr c) cities ->
             exists out, filtered_city_province_df df (VStr c) (VStr p) = Ok out /\
                         rows out <> []).
Proof.
  intros Hc Hp Hne Hav.
  destruct (column_dtype_loc _ _ _ Hc) as [i Hi].
  destruct (column_dtype_loc _ _ _ Hp) as [j Hj].
  assert (Hci : forall r, cell df "city" r = cell_at i r)
    by (intros r; unfold cell; rewrite Hi; reflexivity).
  assert (Hcj : forall r, cell df "province" r = cell_at j r)
    by (intros r; unfold cell; rewrite Hj; reflexivity).
  assert (E : cities
              = unique (map (cell_at i)
                          (List.filter (fun r => py_eq (cell_at j r) (VStr p)) (rows df)))).
  { revert Hav. unfold available_cities, getitem.
    assert (py_eq (VStr p) (VStr "All") = false) as ->
        by (cbn [py_eq]; apply String.eqb_neq; exact Hne).
    rewrite Hj. cbn [bind boolean_index columns rows]. rewrite Hi. cbn [bind s_values].
    unfold series_eq. cbn [s_values]. rewrite map_map, select_rows_map.
    intros [= <-]. reflexivity. }
  assert (Hin : forall v, In v cities
                  <-> exists r, In r (rows df) /\
                                py_eq (cell df "province" r) (VStr p) = true /\
                                cell df "city" r = v).
  { intros v. rewrite E, unique_In, in_map_iff. split.
    - intros (r & Ev & Hr). apply filter_In in Hr. destruct Hr as [Hr Hpr].
      exists r. rewrite Hcj, Hci. tauto.
    - intros (r & Hr & Hpr & Ev). exists r. rewrite Hcj in Hpr. rewrite Hci in Ev.
      split; [exact Ev|]. apply filter_In. tauto. }
  split; [rewrite E; apply unique_NoDup|]. split; [exact Hin|].
  intros c Hcin. apply Hin in Hcin. destruct Hcin as (r & Hr & Hpr & Ecity).
  exists (restrict df (shown df c p)).
  assert (Hshown : shown df c p r = true).
  { unfold shown. rewrite Hpr, orb_true_r. cbn [andb].
    destruct (String.eqb c "All"); [reflexivity|].
    rewrite (py_eq_ci_match _ _ Hpr), Ecity. cbn [ci_match].
    rewrite String.eqb_refl. reflexivity. }
  split.
  { pose proof (column_dtype_has _ _ _ Hp) as Hhas.
    destruct (filter_data_by_province_rows df p Hhas) as (f & Hf & Hcols & Hrows).
    apply (filtered_city_province_df_shown df c p f Hhas Hf). intros _.
    assert (Hrf : In r (rows f))
      by (apply Hrows; split; [exact Hr | rewrite Hpr; apply orb_true_r]).
    assert (Hcell : forall name, cell f name r = cell df name r)
      by (intros; unfold cell; rewrite Hcols; reflexivity).
    destruct (proj1 (py_eq_true _ _) Hpr) as [Eprov _].
    split.
    - apply (str_column_of_text f "city" r c);
        [unfold column_dtype; rewrite Hcols; exact Hc | exact Hrf
        | rewrite Hcell; exact Ecity].
    - apply (str_column_of_text f "province" r p);
        [unfold column_dtype; rewrite Hcols; exact Hp | exact Hrf
        | rewrite Hcell; exact Eprov]. }
  intros Hnil.
  assert (In r (rows (restrict df (shown df c p)))) as Hr'
      by (apply restrict_rows_In; tauto).
  rewrite Hnil in Hr'. destruct Hr'.
Qed.

Lemma available_city_is_shown_witness :
  exists out,
    filtered_city_province_df Sample.two_provinces (VStr "Boston") (VStr "MA") = Ok out /\
    rows out <> [].
Proof.
  apply (proj2 (proj2 (available_city_is_shown Sample.two_provinces "MA"
                         [VStr "Boston"] eq_refl eq_refl ltac:(discriminate) eq_refl))).
  left. reflexivity.
Defined.

(** * Further properties of the aggregations *)

Lemma map_fst_combine_seq {A} (l : list A) a :
  map fst (combine (seq a (length l)) l) = seq a (length l).
Proof.
  revert a. induction l as [|x l IH]; intros a; [reflexivity|].
  cbn [length seq combine map fst]. rewrite IH. reflexivity.
Qed.

Lemma reset_index_labels rs : map fst (reset_index rs) = seq 0 (length rs).
Proof.
  unfold reset_index. rewrite map_map.
  transitivity (map fst (combine (seq 0 (length rs)) rs));
    [apply map_ext; reflexivity | apply map_fst_combine_seq].
Qed.

Lemma reset_index_cells rs : map snd (reset_index rs) = map snd rs.
Proof.
  unfold reset_index. rewrite map_map.
  transitivity (map snd (map snd (combine (seq 0 (length rs)) rs)));
    [rewrite map_map; apply map_ext; reflexivity
    | rewrite map_snd_combine_seq; reflexivity].
Qed.

Lemma reset_index_length rs : length (reset_index rs) = length rs.
Proof.
  unfold reset_index. rewrite length_map, length_combine, length_seq. lia.
Qed.

Lemma sorted_desc_keys key rs :
  sorted_desc key rs <-> Sorted (fun a b => (b <= a)%Z) (map key rs).
Proof.
  unfold sorted_desc. induction rs as [|r rs IH]; cbn [map].
  - split; constructor.
  - split; intros H; apply Sorted_inv in H; destruct H as [Hs Hh];
      (constructor; [apply IH, Hs|]);
      destruct rs; cbn [map] in *; constructor; apply HdRel_inv in Hh; exact Hh.
Qed.

Lemma sorted_desc_reset_index i rs :
  sorted_desc (count_of i) rs -> sorted_desc (count_of i) (reset_index rs).
Proof. rewrite !sorted_desc_keys, count_of_reset_index. tauto. Qed.

Lemma counts_frame_entries kn d cn vs ks :
  map snd (rows (counts_frame kn d cn (map (fun k => (k, count_value k vs)) ks)))
  = map (count_entry vs) ks.
Proof. rewrite counts_frame_cells, map_map. reflexivity. Qed.

(** Rows whose cells are, up to order, the count entries of the keys [ks]:
    their first cells are the keys, and each is the entry of its key. *)
Lemma entries_keys rs vs ks :
  Permutation (map snd rs) (map (count_entry vs) ks) ->
  Permutation (map (cell_at 0) rs) ks.
Proof.
  intros H. rewrite cell_at_cells.
  rewrite (Permutation_map (fun cells => nth 0 cells VNaN) H).
  rewrite map_map. cbn [count_entry nth]. rewrite map_id. reflexivity.
Qed.

Lemma entries_In rs vs ks r :
  Permutation (map snd rs) (map (count_entry vs) ks) ->
  In r rs -> snd r = count_entry vs (cell_at 0 r) /\ In (cell_at 0 r) ks.
Proof.
  intros H Hr.
  assert (In (snd r) (map (count_entry vs) ks)) as Hin
      by (eapply Permutation_in; [exact H | apply in_map, Hr]).
  apply in_map_iff in Hin. destruct Hin as (k & E & Hk).
  unfold cell_at. rewrite <- E. cbn [count_entry nth]. split; [reflexivity | exact Hk].
Qed.

Lemma present_values_In df name k :
  In k (present_values df name) <-> In k (column_values df name) /\ k <> VNaN.
Proof.
  unfold present_values. rewrite filter_In, negb_true_iff.
  destruct k; cbn [is_nan]; split; intros [? ?]; split; congruence.
Qed.

Lemma count_value_present df name k :
  k <> VNaN ->
  count_value k (present_values df name) = count_value k (column_values df name).
Proof.
  intros Hk. apply count_value_filter. destruct k; cbn [is_nan negb]; congruence.
Qed.

Lemma count_value_pos k vs : In k vs -> 1 <= count_value k vs.
Proof.
  intros H. unfold count_value.
  assert (In k (List.filter (value_eqb k) vs)) as Hin
      by (apply filter_In; split; [exact H | apply value_eqb_refl]).
  destruct (List.filter (value_eqb k) vs); [destruct Hin | cbn [length]; lia].
Qed.

Lemma getitem_values df name i d :
  get_loc name (columns df) = Some (i, d) ->
  getitem df name = Ok (mkSeries d (column_values df name)).
Proof.
  intros H. destruct (getitem_Some _ _ _ _ H) as [-> Hcell].
  unfold column_values. do 2 f_equal. apply map_ext. intros r. symmetry. apply Hcell.
Qed.

Section DashboardFacts.

Variable argsort_desc : (Row -> Z) -> list Row -> list Row.
Hypothesis argsort_desc_perm : forall key rs, Permutation (argsort_desc key rs) rs.
Hypothesis argsort_desc_sorted : forall key rs, sorted_desc key (argsort_desc key rs).

(** The sorted rows of a table of counts. *)
Lemma sorted_counts kn d vs ks :
  let rs := argsort_desc (count_of 1)
              (rows (counts_frame kn d "count"
                       (map (fun k => (k, count_value k vs)) ks))) in
  Permutation (map snd rs) (map (count_entry vs) ks) /\
  sorted_desc (count_of 1) rs /\
  length rs = length ks.
Proof.
  intros rs. subst rs.
  assert (P : Permutation
                (map snd (argsort_desc (count_of 1)
                            (rows (counts_frame kn d "count"
                                     (map (fun k => (k, count_value k vs)) ks)))))
                (map (count_entry vs) ks)).
  { rewrite (Permutation_map snd (argsort_desc_perm _ _)).
    rewrite counts_frame_entries. reflexivity. }
  split; [exact P|]. split; [apply argsort_desc_sorted|].
  apply Permutation_length in P. rewrite !length_map in P. exact P.
Qed.

Lemma province_counts_structure df j d :
  get_loc "province" (columns df) = Some (j, d) ->
  exists rs,
    province_counts argsort_desc df
    = Ok (mkDataFrame [("province", d); ("count", numeric)] (reset_index rs)) /\
    Permutation (map snd rs)
                (map (count_entry (present_values df "province"))
                     (unique (present_values df "province"))) /\
    sorted_desc (count_of 1) rs.
Proof.
  intros Hloc. unfold province_counts. rewrite (getitem_values df "province" j d Hloc).
  cbn [bind]. unfold value_counts_frame. cbn [s_values s_dtype].
  change (List.filter (fun x => negb (is_nan x)) (column_values df "province"))
    with (present_values df "province").
  eexists. split; [reflexivity|].
  destruct (sorted_counts "province" d (present_values df "province")
              (unique (present_values df "province"))) as (P & S & _).
  split; assumption.
Qed.

(** X12: the table of [province_counts] has one row for each province that
    occurs in the frame (missing provinces apart), no province twice; the
    count of a row is the number of records of its province; the rows are in
    descending order of the count and numbered from 0. *)
Theorem province_counts_rows df :
  has_column df "province" = true ->
  exists pc,
    province_counts argsort_desc df = Ok pc /\
    NoDup (column_values pc "province") /\
    (forall k, In k (column_values pc "province")
               <-> In k (column_values df "province") /\ k <> VNaN) /\
    (forall r, In r (rows pc) ->
               cell pc "count" r
               = VNum (Z.of_nat (count_value (cell pc "province" r)
                                             (column_values df "province")))) /\
    sorted_desc (fun r => match cell pc "count" r with VNum z => z | _ => 0%Z end)
                (rows pc) /\
    map fst (rows pc) = seq 0 (length (rows pc)).
Proof.
  intros H. destruct (has_column_loc _ _ H) as (j & d & Hloc).
  destruct (province_counts_structure df j d Hloc) as (rs & Hpc & P & S).
  eexists. split; [exact Hpc|].
  set (pc := mkDataFrame [("province", d); ("count", numeric)] (reset_index rs)).
  assert (P' : Permutation (map snd (reset_index rs))
                 (map (count_entry (present_values df "province"))
                      (unique (present_values df "province"))))
    by (rewrite reset_index_cells; exact P).
  assert (Hkeys : column_values pc "province" = map (cell_at 0) (reset_index rs))
    by reflexivity.
  split; [|split; [|split; [|split]]].
  - rewrite Hkeys, (entries_keys _ _ _ P'). apply unique_NoDup.
  - intros k. rewrite Hkeys, <- present_values_In.
    rewrite <- (unique_In k (present_values df "province")).
    split; apply Permutation_in;
      [apply (entries_keys _ _ _ P') | symmetry; apply (entries_keys _ _ _ P')].
  - intros r Hr. destruct (entries_In _ _ _ r P' Hr) as [E Hk].
    change (cell pc "count" r) with (nth 1 (snd r) VNaN).
    change (cell pc "province" r) with (cell_at 0 r).
    rewrite E. cbn [count_entry nth]. do 2 f_equal.
    apply count_value_present.
    apply unique_In, present_values_In in Hk. tauto.
  - apply (sorted_desc_reset_index 1), S.
  - subst pc. cbn [rows]. rewrite reset_index_labels, reset_index_length. reflexivity.
Qed.

Lemma get_top_10_restaurants_structure df i d :
  get_loc "name" (columns df) = Some (i, d) ->
  exists rs,
    get_top_10_restaurants argsort_desc df
    = Ok (mkDataFrame [("name", d); ("count", numeric)] (firstn 10 rs)) /\
    Permutation (map snd rs)
                (map (count_entry (present_values df "name"))
                     (merge_sort value_le (unique (present_values df "name")))) /\
    sorted_desc (count_of 1) rs /\
    length rs = length (unique (present_values df "name")).
Proof.
  intros Hloc. unfold get_top_10_restaurants, groupby_size.
  rewrite (getitem_values df "name" i d Hloc). cbn [bind s_values s_dtype].
  change (List.filter (fun x => negb (is_nan x)) (column_values df "name"))
    with (present_values df "name").
  unfold sort_values_desc.
  change (get_loc "count" (columns (counts_frame "name" d "count"
            (map (fun k => (k, count_value k (present_values df "name")))
                 (merge_sort value_le (unique (present_values df "name")))))))
    with (Some (1, numeric)).
  cbn [bind]. unfold head. cbn [columns rows].
  eexists. split; [reflexivity|].
  destruct (sorted_counts "name" d (present_values df "name")
              (merge_sort value_le (unique (present_values df "name"))))
    as (P & S & L).
  split; [exact P|]. split; [exact S|].
  rewrite L. apply Permutation_length, merge_sort_Permutation.
Qed.

#[local] Instance count_desc_trans i :
  Transitive (fun r1 r2 : Row => (count_of i r2 <= count_of i r1)%Z).
Proof. intros x y z Hxy Hyz. lia. Qed.

(** X13: [get_top_10_restaurants] lists no name twice, lists as many names
    as the frame has distinct names, up to 10, and the names it lists are
    the most common: a name of the frame that is not listed has no more
    records than any name that is. *)
Theorem get_top_10_restaurants_most_common df :
  has_column df "name" = true ->
  exists top,
    get_top_10_restaurants argsort_desc df = Ok top /\
    NoDup (column_values top "name") /\
    length (rows top) = Nat.min 10 (length (unique (present_values df "name"))) /\
    (forall r n k,
        In r (rows top) -> cell top "count" r = VNum n ->
        In k (present_values df "name") -> ~ In k (column_values top "name") ->
        (Z.of_nat (count_value k (column_values df "name")) <= n)%Z).
Proof.
  intros H. destruct (has_column_loc _ _ H) as (i & d & Hloc).
  destruct (get_top_10_restaurants_structure df i d Hloc) as (rs & Htop & P & S & L).
  eexists. split; [exact Htop|].
  set (vs := present_values df "name") in *.
  assert (Hkeys : Permutation (map (cell_at 0) rs) (unique vs)).
  { rewrite (entries_keys _ _ _ P). apply merge_sort_Permutation. }
  assert (Hnames : column_values
                     (mkDataFrame [("name", d); ("count", numeric)] (firstn 10 rs)) "name"
                   = firstn 10 (map (cell_at 0) rs)).
  { unfold column_values. cbn [rows].
    change (cell (mkDataFrame [("name", d); ("count", numeric)] (firstn 10 rs)) "name")
      with (cell_at 0).
    symmetry. apply firstn_map. }
  split; [|split].
  - rewrite Hnames. eapply sublist_NoDup; [|apply sublist_take].
    rewrite Hkeys. apply unique_NoDup.
  - cbn [rows]. rewrite length_firstn, L. reflexivity.
  - intros r n k Hr Hn Hk Hnot. cbn [rows] in Hr. rewrite Hnames in Hnot.
    change (cell (mkDataFrame [("name", d); ("count", numeric)] (firstn 10 rs)) "count" r)
      with (cell_at 1 r) in Hn.
    assert (Hn' : count_of 1 r = n) by (unfold count_of; rewrite Hn; reflexivity).
    assert (exists r2, In r2 rs /\ cell_at 0 r2 = k) as (r2 & Hr2 & Ek).
    { assert (In k (map (cell_at 0) rs)) as Hin.
      { eapply Permutation_in; [symmetry; exact Hkeys | apply unique_In, Hk]. }
      apply in_map_iff in Hin. destruct Hin as (r2 & E & Hr2). exists r2. tauto. }
    assert (Hcount : count_of 1 r2 = Z.of_nat (count_value k (column_values df "name"))).
    { destruct (entries_In _ _ _ r2 P Hr2) as [E _].
      unfold count_of, cell_at. rewrite E. cbn [count_entry nth]. rewrite Ek.
      f_equal. apply count_value_present.
      apply present_values_In in Hk. tauto. }
    rewrite <- Hcount, <- Hn'.
    assert (Hsplit : rs = firstn 10 rs ++ skipn 10 rs) by (symmetry; apply firstn_skipn).
    assert (In r2 (skipn 10 rs)) as Hskip.
    { rewrite Hsplit in Hr2. apply in_app_or in Hr2. destruct Hr2 as [Hf | Hs]; [|exact Hs].
      exfalso. apply Hnot. rewrite firstn_map, <- Ek. apply in_map, Hf. }
    assert (SS : StronglySorted (fun r1 r2 => (count_of 1 r2 <= count_of 1 r1)%Z)
                                (firstn 10 rs ++ skipn 10 rs)).
    { rewrite <- Hsplit. apply Sorted_StronglySorted; [apply _ | exact S]. }
    apply (StronglySorted_app_1_elem_of _ _ _ r r2 SS);
      apply list_elem_of_In; assumption.
Qed.

Lemma top_10_names_present df i d rs :
  get_loc "name" (columns df) = Some (i, d) ->
  Permutation (map (cell_at 0) rs) (unique (present_values df "name")) ->
  forall r, In r (rows df) ->
    existsb (value_eqb (cell df "name" r)) (map (cell_at 0) (firstn 10 rs)) = true ->
    cell df "name" r <> VNaN.
Proof.
  intros Hloc Hkeys r Hr Hex. apply existsb_value_eqb_In in Hex.
  rewrite <- firstn_map in Hex. apply firstn_In in Hex.
  apply (Permutation_in _ Hkeys), unique_In, present_values_In in Hex. tauto.
Qed.

(** X14: the rows put on the map of the most common restaurants (lines
    230-246) are the rows of the province-filtered frame that bear one of
    the listed names; a row without a name is never among them, and when
    the filtered frame has at most 10 distinct names they are all its rows
    that have a name. *)
Theorem top_10_data_spec df p filtered :
  filtered_df_top10 df p = Ok filtered ->
  has_column filtered "name" = true ->
  exists top out,
    get_top_10_restaurants argsort_desc filtered = Ok top /\
    top_10_data argsort_desc df p = Ok out /\
    out = restrict filtered
            (fun r => existsb (value_eqb (cell filtered "name" r))
                              (column_values top "name")) /\
    (forall r, In r (rows out) -> cell filtered "name" r <> VNaN) /\
    (length (unique (present_values filtered "name")) <= 10 ->
     out = restrict filtered (fun r => negb (is_nan (cell filtered "name" r)))).
Proof.
  intros Hf H. destruct (has_column_loc _ _ H) as (i & d & Hloc).
  destruct (get_top_10_restaurants_structure filtered i d Hloc)
    as (rs & Htop & P & S & L).
  assert (Hkeys : Permutation (map (cell_at 0) rs)
                              (unique (present_values filtered "name"))).
  { rewrite (entries_keys _ _ _ P). apply merge_sort_Permutation. }
  set (top := mkDataFrame [("name", d); ("count", numeric)] (firstn 10 rs)) in *.
  assert (Hnames : column_values top "name" = map (cell_at 0) (firstn 10 rs))
    by reflexivity.
  exists top, (restrict filtered
                 (fun r => existsb (value_eqb (cell filtered "name" r))
                                   (column_values top "name"))).
  split; [exact Htop|]. split; [|split; [reflexivity|split]].
  - unfold top_10_data. rewrite Hf. cbn [bind]. rewrite Htop. cbn [bind].
    unfold get_restaurants_by_top_10.
    change (getitem top "name") with (Ok (mkSeries d (column_values top "name"))).
    destruct (getitem_Some _ _ _ _ Hloc) as [-> Hcell]. cbn [bind s_values].
    unfold boolean_index, restrict, isin. cbn [s_values].
    rewrite map_map, select_rows_map. do 2 f_equal.
    apply filter_ext_in_rows. intros r _. rewrite Hcell. reflexivity.
  - intros r Hr. apply restrict_rows_In in Hr. destruct Hr as [Hr Hex].
    rewrite Hnames in Hex.
    exact (top_10_names_present filtered i d rs Hloc Hkeys r Hr Hex).
  - intros Hle. apply restrict_ext. intros r Hr. rewrite Hnames.
    rewrite (firstn_all2 rs) by lia.
    destruct (existsb (value_eqb (cell filtered "name" r)) (map (cell_at 0) rs)) eqn:E.
    + apply existsb_value_eqb_In in E.
      apply (Permutation_in _ Hkeys), unique_In, present_values_In in E.
      destruct E as [_ E]. destruct (cell filtered "name" r); cbn; congruence.
    + destruct (is_nan (cell filtered "name" r)) eqn:En; [reflexivity|].
      exfalso. apply not_true_iff_false in E. apply E.
      apply existsb_value_eqb_In.
      apply (Permutation_in _ (Permutation_sym Hkeys)), unique_In, present_values_In.
      split; [apply in_map, Hr|]. intros C. rewrite C in En. discriminate.
Qed.

Lemma Sorted_count_pairs rs :
  sorted_desc (count_of 1) rs ->
  Sorted (fun a b : value * Z => (snd b <= snd a)%Z)
         (map (fun r => (cell_at 0 r, count_of 1 r)) rs).
Proof.
  unfold sorted_desc. induction 1 as [|r rs Hs IH Hr]; cbn [map]; constructor.
  - exact IH.
  - destruct Hr; cbn [map]; constructor. assumption.
Qed.

(** X15: on a frame whose city column has [.str] (an [object] column
    that holds a text, or no value at all), [get_top_restaurants_by_city]
    counts the records whose city matches the given text whatever the
    letter case: it returns, most frequent first, the names of those
    records with their numbers of occurrences, each name once, as many as
    there are up to 10.  A city that is not a text raises
    [AttributeError]. *)
Theorem get_top_restaurants_by_city_spec df (c : string) :
  str_column df "city" = true ->
  has_column df "name" = true ->
  (exists top,
     get_top_restaurants_by_city argsort_desc df (VStr c) = Ok top /\
     length top
     = Nat.min 10 (length (unique (present_values
                 (restrict df (fun r => ci_match (cell df "city" r) c)) "name"))) /\
     Sorted (fun a b => (snd b <= snd a)%Z) top /\
     NoDup (map fst top) /\
     (forall k n, In (k, n) top ->
        k <> VNaN /\
        n = Z.of_nat (count_value k (column_values
                (restrict df (fun r => ci_match (cell df "city" r) c)) "name")) /\
        (1 <= n)%Z)) /\
  (forall city, is_str city = false ->
     exists msg, get_top_restaurants_by_city argsort_desc df city
                 = Raise (AttributeError msg)).
Proof.
  intros Hc Hn.
  destruct (str_column_loc _ _ Hc) as (i & di & Hi & Hstr).
  destruct (has_column_loc _ _ Hn) as (j & d & Hj).
  destruct (getitem_Some _ _ _ _ Hi) as [Hget Hci].
  split.
  - set (city_data := restrict df (fun r => ci_match (cell df "city" r) c)).
    assert (Hdata : boolean_index df
                      (series_eq (mkSeries object
                         (map (fun x => match x with
                                        | VStr t => VStr (Str.lower t) | _ => VNaN end)
                              (map (cell_at i) (rows df))))
                         (VStr (Str.lower c)))
                    = city_data).
    { unfold boolean_index, city_data, restrict, series_eq. cbn [s_values].
      rewrite !map_map, select_rows_map. f_equal. apply filter_ext_in_rows.
      intros r _. rewrite Hci, py_eq_lowered. reflexivity. }
    unfold get_top_restaurants_by_city. rewrite Hget.
    cbn [bind]. unfold str_lower. rewrite Hstr. cbn [bind s_values py_lower].
    rewrite Hdata.
    rewrite (getitem_values city_data "name" j d Hj). cbn [bind].
    unfold value_counts. cbn [s_values s_dtype].
    change (List.filter (fun x => negb (is_nan x)) (column_values city_data "name"))
      with (present_values city_data "name").
    set (vs := present_values city_data "name").
    destruct (sorted_counts "index" d vs (unique vs)) as (P & S & L).
    set (rs := argsort_desc (count_of 1)
                 (rows (counts_frame "index" d "count"
                          (map (fun k => (k, count_value k vs)) (unique vs))))) in *.
    eexists. split; [reflexivity|]. split; [|split; [|split]].
    + rewrite length_firstn, length_map, L. reflexivity.
    + apply Sorted_firstn, Sorted_count_pairs, S.
    + rewrite <- firstn_map, map_map. cbn [fst].
      eapply sublist_NoDup; [|apply sublist_take].
      rewrite (entries_keys _ _ _ P). apply unique_NoDup.
    + intros k n Hin. apply firstn_In, in_map_iff in Hin.
      destruct Hin as (r & [= <- <-] & Hr).
      destruct (entries_In _ _ _ r P Hr) as [E Hk].
      apply (proj1 (unique_In _ _)) in Hk.
      pose proof (proj1 (present_values_In _ _ _) Hk) as [_ Hnan].
      split; [exact Hnan|].
      assert (En : count_of 1 r = Z.of_nat (count_value (cell_at 0 r) vs)).
      { unfold count_of. unfold cell_at at 1. rewrite E. reflexivity. }
      rewrite En. split.
      * f_equal. apply count_value_present, Hnan.
      * pose proof (count_value_pos _ _ Hk). lia.
  - intros city Hs. unfold get_top_restaurants_by_city. rewrite Hget.
    cbn [bind]. unfold str_lower. rewrite Hstr. cbn [bind].
    destruct city; [discriminate| |]; cbn [py_lower bind]; eexists; reflexivity.
Qed.

Lemma filter_unique_key (key : Row -> value) rs m :
  NoDup (map key rs) -> In m rs ->
  List.filter (fun r => value_eqb (key m) (key r)) rs = [m].
Proof.
  induction rs as [|a rs IH]; intros Hnd Hin; [destruct Hin|].
  cbn [map] in Hnd. apply NoDup_cons in Hnd. destruct Hnd as [Ha Hnd].
  cbn [List.filter]. destruct Hin as [-> | Hin].
  - rewrite value_eqb_refl. f_equal. apply filter_none. intros r Hr.
    destruct (value_eqb (key m) (key r)) eqn:E; [|reflexivity].
    exfalso. apply Ha. apply value_eqb_eq in E. rewrite E.
    apply list_elem_of_In, in_map, Hr.
  - destruct (value_eqb (key m) (key a)) eqn:E.
    + exfalso. apply Ha. apply value_eqb_eq in E. rewrite <- E.
      apply list_elem_of_In, in_map, Hin.
    + apply IH; assumption.
Qed.

Lemma flat_map_singleton {A B} (f : A -> list B) (g : A -> B) (l : list A) :
  (forall x, In x l -> f x = [g x]) -> flat_map f l = map g l.
Proof.
  induction l as [|x l IH]; intros H; [reflexivity|].
  cbn [flat_map map]. rewrite (H x (or_introl eq_refl)), IH; [reflexivity|].
  intros y Hy. apply H. right. exact Hy.
Qed.

Lemma get_loc_None_names name cols :
  get_loc name cols = None -> forall c, In c cols -> String.eqb (fst c) name = false.
Proof.
  induction cols as [|[n d] cols IH]; intros H c Hc; [destruct Hc|].
  cbn [get_loc] in H. destruct (String.eqb n name) eqn:E; [discriminate|].
  destruct (get_loc name cols) as [[? ?]|]; [discriminate|].
  destruct Hc as [<- | Hc]; [exact E | apply IH; [reflexivity | exact Hc]].
Qed.

(** X16: the join of lines 122-126 keeps every row of the filtered frame,
    once and in order, numbers the rows from 0, and adds to each the number
    of records of its province (NaN for a row without a province); it adds
    one column, ['count'], when the frame has no column of that name. *)
Theorem map_data_spec df :
  has_column df "province" = true ->
  exists out,
    map_data argsort_desc df = Ok out /\
    map fst (rows out) = seq 0 (length (rows df)) /\
    map snd (rows out) = map (fun r => snd r ++ [province_count df r]) (rows df) /\
    (has_column df "count" = false ->
     columns out = columns df ++ [("count", numeric)]).
Proof.
  intros H. destruct (has_column_loc _ _ H) as (j & d & Hloc).
  destruct (province_counts_structure df j d Hloc) as (rs & Hpc & P & _).
  assert (Hcj : forall r, cell df "province" r = cell_at j r)
    by (intros r; unfold cell; rewrite Hloc; reflexivity).
  set (vs := present_values df "province") in *.
  assert (P' : Permutation (map snd (reset_index rs)) (map (count_entry vs) (unique vs)))
    by (rewrite reset_index_cells; exact P).
  pose proof (entries_keys _ _ _ P') as Hkeys.
  assert (Hnd : NoDup (map (cell_at 0) (reset_index rs)))
    by (rewrite Hkeys; apply unique_NoDup).
  assert (Hrow : forall l, In l (rows df) ->
             merge_row j 0 1 (reset_index rs) l = [snd l ++ [province_count df l]]).
  { intros l Hl. unfold merge_row, province_count. rewrite Hcj.
    destruct (is_nan (cell_at j l)) eqn:En.
    - rewrite filter_none; [reflexivity|]. intros r Hr.
      destruct (entries_In _ _ _ r P' Hr) as [_ Hk].
      apply unique_In, present_values_In in Hk. destruct Hk as [_ Hk].
      destruct (cell_at j l); try discriminate.
      destruct (cell_at 0 r); [reflexivity | reflexivity | congruence].
    - assert (Hk : In (cell_at j l) (unique vs)).
      { apply unique_In, present_values_In. split.
        - unfold column_values. rewrite <- Hcj. apply in_map, Hl.
        - intros C. rewrite C in En. discriminate. }
      apply (Permutation_in _ (Permutation_sym Hkeys)), in_map_iff in Hk.
      destruct Hk as (m & Em & Hm). rewrite <- Em.
      rewrite (filter_unique_key (cell_at 0) (reset_index rs) m Hnd Hm).
      cbn [map]. destruct (entries_In _ _ _ m P' Hm) as [E _].
      rewrite E. unfold count_entry.
      change (delete 0 [cell_at 0 m; VNum (Z.of_nat (count_value (cell_at 0 m) vs))])
        with [VNum (Z.of_nat (count_value (cell_at 0 m) vs))].
      do 5 f_equal.
      apply count_value_present. intros C. rewrite <- Em, C in En. discriminate. }
  unfold map_data. rewrite Hpc. cbn [bind]. unfold merge_left. rewrite Hloc.
  change (get_loc "province"
            (columns (mkDataFrame [("province", d); ("count", numeric)] (reset_index rs))))
    with (Some (0, d)).
  cbv beta iota.
  assert (dtype_eqb d d = true) as -> by (destruct d; reflexivity).
  cbn [columns rows].
  change (delete 0 [("province", d); ("count", numeric)]) with [("count", numeric)].
  change (length [("count", numeric)]) with 1.
  rewrite (flat_map_singleton _ _ _ Hrow).
  eexists. split; [reflexivity|]. cbn [rows columns]. split; [|split].
  - rewrite map_fst_combine_seq, length_map. reflexivity.
  - apply map_snd_combine_seq.
  - intros Hcount. unfold has_column in Hcount.
    destruct (get_loc "count" (columns df)) as [[? ?]|] eqn:Ecount; [discriminate|].
    pose proof (get_loc_None_names _ _ Ecount) as Hnames.
    unfold merge_columns. f_equal.
    + rewrite <- (map_id (columns df)) at 2. apply map_ext_in. intros c Hcin.
      change (existsb (String.eqb (fst c)) (map fst [("count", numeric)]))
        with (String.eqb (fst c) "count" || false).
      rewrite (Hnames c Hcin).
      destruct (String.eqb (fst c) "province"); reflexivity.
    + cbn [map fst]. 
      assert (existsb (String.eqb "count") (map fst (columns df)) = false) as ->;
        [|reflexivity].
      apply not_true_iff_false. intros C. apply existsb_exists in C.
      destruct C as (n & Hn & En). apply in_map_iff in Hn.
      destruct Hn as (c & <- & Hcin). rewrite String.eqb_sym, (Hnames c Hcin) in En.
      discriminate.
Qed.

End DashboardFacts.

(** ** The aggregations on the sample data, continued *)

Lemma province_counts_rows_witness :
  exists pc,
    province_counts stable_sort_desc Sample.two_provinces = Ok pc /\
    NoDup (column_values pc "province").
Proof.
  destruct (province_counts_rows stable_sort_desc stable_sort_desc_perm
              stable_sort_desc_sorted Sample.two_provinces eq_refl)
    as (pc & H1 & H2 & _).
  exists pc. split; assumption.
Defined.

Lemma get_top_10_restaurants_most_common_witness :
  exists top,
    get_top_10_restaurants stable_sort_desc Sample.two_provinces = Ok top /\
    length (rows top) = 2.
Proof.
  destruct (get_top_10_restaurants_most_common stable_sort_desc stable_sort_desc_perm
              stable_sort_desc_sorted Sample.two_provinces eq_refl)
    as (top & H1 & _ & H3 & _).
  exists top. split; [exact H1 | exact H3].
Defined.

Lemma top_10_data_spec_witness :
  top_10_data stable_sort_desc Sample.missing_province (VStr "All")
  = Ok Sample.missing_province.
Proof.
  destruct (top_10_data_spec stable_sort_desc stable_sort_desc_perm
              stable_sort_desc_sorted Sample.missing_province (VStr "All")
              Sample.missing_province eq_refl eq_refl)
    as (top & out & _ & H2 & _ & _ & H5).
  rewrite H2, H5; [reflexivity|]. vm_compute. lia.
Defined.

Lemma get_top_restaurants_by_city_spec_witness :
  exists top,
    get_top_restaurants_by_city stable_sort_desc Sample.two_provinces (VStr "BOSTON")
    = Ok top /\
    length top = 2.
Proof.
  destruct (proj1 (get_top_restaurants_by_city_spec stable_sort_desc
                     stable_sort_desc_perm stable_sort_desc_sorted
                     Sample.two_provinces "BOSTON" eq_refl eq_refl))
    as (top & H1 & H2 & _).
  exists top. split; [exact H1 | exact H2].
Defined.

Lemma map_data_spec_witness :
  exists out,
    map_data stable_sort_desc Sample.missing_province = Ok out /\
    map snd (rows out)
    = [[VStr "1"; VStr "A"; VStr "Boston"; VStr "MA"; VStr "burgers"; VNum 1];
       [VStr "2"; VStr "B"; VStr "Salem"; VNaN; VStr "pizza"; VNaN]].
Proof.
  destruct (map_data_spec stable_sort_desc stable_sort_desc_perm
              stable_sort_desc_sorted Sample.missing_province eq_refl)
    as (out & H1 & _ & H3 & _).
  exists out. split; [exact H1|]. rewrite H3. reflexivity.
Defined.

(** * Further properties: the data of the charts *)

Lemma filter_filter_and {A} (p q : A -> bool) (l : list A) :
  List.filter q (List.filter p l) = List.filter (fun x => p x && q x) l.
Proof.
  induction l as [|x l IH]; [reflexivity|].
  cbn [List.filter]. destruct (p x); cbn [List.filter andb]; rewrite IH; reflexivity.
Qed.

Lemma filter_ext_In {A} (p q : A -> bool) (l : list A) :
  (forall x, In x l -> p x = q x) -> List.filter p l = List.filter q l.
Proof.
  induction l as [|x l IH]; intros H; [reflexivity|].
  cbn [List.filter]. rewrite (H x (or_introl eq_refl)), IH; [reflexivity|].
  intros y Hy. apply H. right. exact Hy.
Qed.

Lemma combine_map {A B C} (f : A -> B) (g : A -> C) (l : list A) :
  combine (map f l) (map g l) = map (fun x => (f x, g x)) l.
Proof.
  induction l as [|x l IH]; [reflexivity|]. cbn [map combine]. rewrite IH. reflexivity.
Qed.

Lemma pair_eqb_eq a b : pair_eqb a b = true <-> a = b.
Proof.
  destruct a as [a1 a2], b as [b1 b2]. unfold pair_eqb. cbn [fst snd].
  rewrite andb_true_iff, !value_eqb_eq. split; [intros [-> ->]; reflexivity|].
  intros [= -> ->]. split; reflexivity.
Qed.

Lemma unique_pairs_In k ps : In k (unique_pairs ps) <-> In k ps.
Proof.
  induction ps as [|x ps IH]; cbn [unique_pairs In]; [reflexivity|].
  rewrite filter_In, IH, negb_true_iff. split.
  - intros [H | [H _]]; auto.
  - intros [H | H]; [auto|].
    destruct (pair_eqb x k) eqn:E; [apply pair_eqb_eq in E; auto | auto].
Qed.

Lemma unique_pairs_NoDup ps : NoDup (unique_pairs ps).
Proof.
  induction ps as [|x ps IH]; cbn [unique_pairs]; constructor.
  - rewrite list_elem_of_In, filter_In.
    intros [_ H]. rewrite (proj2 (pair_eqb_eq x x) eq_refl) in H. discriminate.
  - apply NoDup_ListNoDup, List.NoDup_filter, NoDup_ListNoDup, IH.
Qed.

(** [get_category_data] on a frame that has both columns. *)
Lemma get_category_data_selected df (S : list value) p :
  has_column df "province" = true ->
  has_column df "categories" = true ->
  get_category_data df S p = Ok (restrict df (selected df S p)).
Proof.
  intros Hp Hc. unfold get_category_data. destruct S as [|v vs].
  - cbn [bind]. rewrite (boolean_index_series_eq df "province" p Hp). reflexivity.
  - rewrite (boolean_index_isin df "categories" (v :: vs) Hc). cbn [bind].
    rewrite (boolean_index_series_eq (restrict df _) "province" p Hp).
    rewrite restrict_restrict. reflexivity.
Qed.

(** X17: the rows of the bar chart data.  Each row is of the selected
    province and of a category that is not missing (one of the selected
    categories, when some are selected); no category comes twice; every
    category of a record that passes the filter has its row; the count of a
    row is the number of records that pass the filter and have its
    category. *)
Theorem category_counts_rows df (S : list value) p :
  has_column df "province" = true ->
  has_column df "categories" = true ->
  exists cc,
    category_counts df S p = Ok cc /\
    NoDup (column_values cc "categories") /\
    (forall r, In r (rows cc) ->
       cell cc "province" r = p /\
       cell cc "categories" r <> VNaN /\
       (S <> [] -> In (cell cc "categories" r) S) /\
       cell cc "count" r
       = VNum (Z.of_nat (length (List.filter
                  (fun r0 => selected df S p r0
                             && value_eqb (cell df "categories" r0)
                                          (cell cc "categories" r))
                  (rows df))))) /\
    (forall r0, In r0 (rows df) -> selected df S p r0 = true ->
                cell df "categories" r0 <> VNaN ->
                In (cell df "categories" r0) (column_values cc "categories")).
Proof.
  intros Hp Hc.
  destruct (has_column_loc _ _ Hp) as (i & d1 & Hi).
  destruct (has_column_loc _ _ Hc) as (j & d2 & Hj).
  set (f := restrict df (selected df S p)).
  set (key := fun r : Row => (cell df "province" r, cell df "categories" r)).
  set (present2 := fun k : value * value =>
                     negb (is_nan (fst k)) && negb (is_nan (snd k))).
  set (ps := List.filter present2 (map key (rows f))).
  set (keys := merge_sort pair_le (unique_pairs ps)).
  assert (Hcc : category_counts df S p
                = Ok (mkDataFrame
                        [("province", d1); ("categories", d2); ("count", numeric)]
                        (map (fun ik => (fst ik, [fst (snd ik); snd (snd ik);
                                                  VNum (Z.of_nat (count_pair (snd ik) ps))]))
                             (combine (seq 0 (length keys)) keys)))).
  { unfold category_counts. rewrite (get_category_data_selected df S p Hp Hc).
    cbn [bind]. fold f. unfold groupby2_size.
    rewrite (getitem_values f "province" i d1 Hi).
    rewrite (getitem_values f "categories" j d2 Hj).
    cbn [bind s_values s_dtype]. unfold column_values. rewrite combine_map.
    reflexivity. }
  eexists. split; [exact Hcc|].
  set (cc := mkDataFrame _ _).
  assert (Hcells : map snd (rows cc)
                   = map (fun k => [fst k; snd k; VNum (Z.of_nat (count_pair k ps))]) keys).
  { subst cc. cbn [rows]. rewrite map_map. cbn [snd].
    rewrite <- (map_map snd (fun k => [fst k; snd k; VNum (Z.of_nat (count_pair k ps))])).
    rewrite map_snd_combine_seq. reflexivity. }
  assert (Hkey_in : forall k, In k keys <->
            exists r0, In r0 (rows df) /\ selected df S p r0 = true /\
                       key r0 = k /\ present2 k = true).
  { intros k. unfold keys. split.
    - intros Hk. apply (Permutation_in _ (merge_sort_Permutation _ _)) in Hk.
      apply (proj1 (unique_pairs_In _ _)) in Hk.
      apply filter_In in Hk. destruct Hk as [Hk Hpres].
      apply in_map_iff in Hk. destruct Hk as (r0 & E & Hr0).
      apply restrict_rows_In in Hr0. exists r0. tauto.
    - intros (r0 & Hr0 & Hsel & E & Hpres).
      apply (Permutation_in _ (Permutation_sym (merge_sort_Permutation _ _))).
      apply (proj2 (unique_pairs_In _ _)). apply filter_In. split; [|exact Hpres].
      rewrite <- E. apply in_map, restrict_rows_In. tauto. }
  assert (Hprov : forall r0, selected df S p r0 = true ->
                             cell df "province" r0 = p /\ p <> VNaN).
  { intros r0 Hsel. unfold selected in Hsel. apply andb_true_iff in Hsel.
    destruct Hsel as [_ Hsel]. apply py_eq_true in Hsel.
    destruct Hsel as [E Hn]. split; congruence. }
  assert (Hcats : column_values cc "categories" = map snd keys).
  { unfold column_values.
    change (cell cc "categories") with (cell_at 1).
    rewrite cell_at_cells, Hcells, map_map. reflexivity. }
  split; [|split].
  - rewrite Hcats. apply (NoDup_fmap_2_strong snd).
    + intros [a1 b1] [a2 b2] H1 H2 E. cbn [snd] in E. subst b2.
      apply list_elem_of_In, Hkey_in in H1. apply list_elem_of_In, Hkey_in in H2.
      destruct H1 as (r1 & _ & Hs1 & E1 & _). destruct H2 as (r2 & _ & Hs2 & E2 & _).
      injection E1 as E1 _. injection E2 as E2 _.
      rewrite (proj1 (Hprov r1 Hs1)) in E1. rewrite (proj1 (Hprov r2 Hs2)) in E2.
      congruence.
    + unfold keys. rewrite merge_sort_Permutation. apply unique_pairs_NoDup.
  - intros r Hr.
    assert (In (snd r) (map snd (rows cc))) as Hin by (apply in_map, Hr).
    rewrite Hcells in Hin. apply in_map_iff in Hin. destruct Hin as ([a b] & E & Hk).
    cbn [fst snd] in E.
    change (cell cc "province" r) with (nth 0 (snd r) VNaN).
    change (cell cc "categories" r) with (nth 1 (snd r) VNaN).
    change (cell cc "count" r) with (nth 2 (snd r) VNaN).
    rewrite <- E. cbn [nth].
    pose proof (proj1 (Hkey_in _) Hk) as (r0 & Hr0 & Hsel & Ekey & Hpres).
    injection Ekey as Ea Eb. destruct (Hprov r0 Hsel) as [Epr Hpn].
    unfold present2 in Hpres. cbn [fst snd] in Hpres.
    apply andb_true_iff in Hpres. destruct Hpres as [_ Hb].
    assert (Hbn : b <> VNaN) by (intros C; rewrite C in Hb; discriminate).
    split; [congruence|]. split; [exact Hbn|]. split.
    + intros HS. unfold selected in Hsel. destruct S as [|v vs]; [congruence|].
      apply andb_true_iff in Hsel. destruct Hsel as [Hsel _].
      apply existsb_value_eqb_In in Hsel. rewrite Eb in Hsel. exact Hsel.
    + do 2 f_equal. unfold count_pair, ps.
      rewrite filter_filter_and, filter_map_swap, length_map.
      subst f. unfold restrict. cbn [rows]. rewrite filter_filter_and.
      f_equal. apply filter_ext_In. intros r1 Hr1.
      destruct (selected df S p r1) eqn:Hs1; [|reflexivity]. cbn [andb].
      destruct (Hprov r1 Hs1) as [Ep1 _].
      unfold present2, key, pair_eqb. cbn [fst snd]. rewrite Ep1, <- Ea, Epr.
      rewrite value_eqb_refl.
      assert (is_nan p = false) as -> by (destruct p; [reflexivity..|congruence]).
      cbn [negb andb]. rewrite (value_eqb_sym b).
      destruct (value_eqb (cell df "categories" r1) b) eqn:Ecat;
        [|rewrite andb_false_r; reflexivity].
      apply value_eqb_eq in Ecat. rewrite Ecat.
      destruct b; [reflexivity | reflexivity | congruence].
  - intros r0 Hr0 Hsel Hcat. rewrite Hcats.
    change (cell df "categories" r0) with (snd (key r0)). apply in_map.
    apply Hkey_in. exists r0. split; [exact Hr0|]. split; [exact Hsel|].
    split; [reflexivity|]. unfold present2, key. cbn [fst snd].
    destruct (Hprov r0 Hsel) as [-> Hpn].
    destruct p; [| |congruence];
      (destruct (cell df "categories" r0); [reflexivity | reflexivity | congruence]).
Qed.

Lemma category_counts_rows_witness :
  exists cc,
    category_counts Sample.two_provinces [] (VStr "MA") = Ok cc /\
    NoDup (column_values cc "categories").
Proof.
  destruct (category_counts_rows Sample.two_provinces [] (VStr "MA") eq_refl eq_refl)
    as (cc & H1 & H2 & _).
  exists cc. split; assumption.
Defined.

Section PieFacts.

Variable argsort_desc : (Row -> Z) -> list Row -> list Row.
Hypothesis argsort_desc_perm : forall key rs, Permutation (argsort_desc key rs) rs.
Hypothesis argsort_desc_sorted : forall key rs, sorted_desc key (argsort_desc key rs).

(** [value_counts] on the values [vs]: the distinct values that are not
    NaN, each once, with their numbers of occurrences in descending
    order. *)
Lemma value_counts_entries d vs :
  let counts := value_counts argsort_desc (mkSeries d vs) in
  NoDup (map fst counts) /\
  Sorted (fun a b => (snd b <= snd a)%Z) counts /\
  (forall k, In k (map fst counts) <-> In k vs /\ k <> VNaN) /\
  (forall k n, In (k, n) counts -> n = Z.of_nat (count_value k vs)).
Proof.
  intros counts. subst counts. unfold value_counts. cbn [s_values s_dtype].
  set (ws := List.filter (fun x => negb (is_nan x)) vs).
  assert (Hws : forall k, In k ws <-> In k vs /\ k <> VNaN).
  { intros k. unfold ws. rewrite filter_In, negb_true_iff.
    destruct k; cbn [is_nan]; split; intros [? ?]; split; congruence. }
  set (rs := argsort_desc (count_of 1)
               (rows (counts_frame "index" d "count"
                        (map (fun k => (k, count_value k ws)) (unique ws))))).
  assert (P : Permutation (map snd rs) (map (count_entry ws) (unique ws))).
  { unfold rs. rewrite (Permutation_map snd (argsort_desc_perm _ _)).
    rewrite counts_frame_entries. reflexivity. }
  assert (Hfst : map fst (map (fun r => (cell_at 0 r, count_of 1 r)) rs)
                 = map (cell_at 0) rs) by (rewrite map_map; reflexivity).
  split; [|split; [|split]].
  - rewrite Hfst, (entries_keys _ _ _ P). apply unique_NoDup.
  - apply Sorted_count_pairs. unfold rs. apply argsort_desc_sorted.
  - intros k. rewrite Hfst, <- Hws, <- (unique_In k ws).
    split; apply Permutation_in;
      [apply (entries_keys _ _ _ P) | symmetry; apply (entries_keys _ _ _ P)].
  - intros k n Hin. apply in_map_iff in Hin. destruct Hin as (r & [= <- <-] & Hr).
    destruct (entries_In _ _ _ r P Hr) as [E Hk].
    apply (proj1 (unique_In _ _)) in Hk. apply Hws in Hk.
    unfold count_of. unfold cell_at at 1. rewrite E. cbn [count_entry nth].
    f_equal. apply count_value_filter.
    destruct (cell_at 0 r); [reflexivity | reflexivity | tauto].
Qed.

(** X18: the data of the pie chart.  It lists, each once and most frequent
    first, the categories that occur in the frame (missing ones apart) --
    only the selected ones when some are selected -- each with its number
    of records in the whole frame. *)
Theorem type_counts_spec df (S : list value) :
  has_column df "categories" = true ->
  exists counts,
    type_counts argsort_desc df S = Ok counts /\
    NoDup (map fst counts) /\
    Sorted (fun a b => (snd b <= snd a)%Z) counts /\
    (forall k, In k (map fst counts)
               <-> In k (present_values df "categories") /\ (S = [] \/ In k S)) /\
    (forall k n, In (k, n) counts ->
                 n = Z.of_nat (count_value k (column_values df "categories"))).
Proof.
  intros Hc. destruct (has_column_loc _ _ Hc) as (j & d & Hj).
  unfold type_counts. destruct S as [|v vs].
  - cbn [get_pie_chart_data bind]. rewrite (getitem_values df "categories" j d Hj).
    cbn [bind]. eexists. split; [reflexivity|].
    destruct (value_counts_entries d (column_values df "categories"))
      as (H1 & H2 & H3 & H4).
    split; [exact H1|]. split; [exact H2|]. split; [|exact H4].
    intros k. rewrite H3, present_values_In. tauto.
  - unfold get_pie_chart_data.
    rewrite (boolean_index_isin df "categories" (v :: vs) Hc). cbn [bind].
    set (q := fun x => existsb (value_eqb x) (v :: vs)).
    rewrite (getitem_values (restrict df _) "categories" j d Hj). cbn [bind].
    assert (Hvals : column_values
                      (restrict df (fun r => existsb (value_eqb (cell df "categories" r))
                                                     (v :: vs))) "categories"
                    = List.filter q (column_values df "categories")).
    { unfold column_values, restrict. cbn [rows].
      change (cell (mkDataFrame (columns df) _) "categories")
        with (cell df "categories").
      rewrite (filter_map_swap q). reflexivity. }
    rewrite Hvals. eexists. split; [reflexivity|].
    destruct (value_counts_entries d (List.filter q (column_values df "categories")))
      as (H1 & H2 & H3 & H4).
    split; [exact H1|]. split; [exact H2|]. split.
    + intros k. rewrite H3, filter_In, present_values_In.
      unfold q. rewrite existsb_value_eqb_In. split.
      * intros [[Hk Hs] Hn]. split; [tauto | right; exact Hs].
      * intros [[Hk Hn] [C | Hs]]; [discriminate | tauto].
    + intros k n Hin. rewrite (H4 k n Hin). f_equal.
      apply count_value_filter.
      assert (In k (map fst (value_counts argsort_desc
                (mkSeries d (List.filter q (column_values df "categories"))))))
        as Hk by (apply (in_map fst _ _ Hin)).
      apply H3 in Hk. destruct Hk as [Hk _]. apply filter_In in Hk. tauto.
Qed.

End PieFacts.

Lemma type_counts_spec_witness :
  exists counts,
    type_counts stable_sort_desc Sample.two_provinces [VStr "pizza"] = Ok counts /\
    NoDup (map fst counts).
Proof.
  destruct (type_counts_spec stable_sort_desc stable_sort_desc_perm
              stable_sort_desc_sorted Sample.two_provinces [VStr "pizza"] eq_refl)
    as (counts & H1 & H2 & _).
  exists counts. split; assumption.
Defined.
